(** * Document summarizer / question-answering bot: ingestion and retrieval

    A shallow embedding of [rag.py] (document ingestion, cross-collection
    retrieval and ranking), [main.py] (task registry, [/ask] endpoint) and of
    the relevance bucketing of [frontend.py].

    Conventions of the embedding:
    - a Python call that may raise is a value of [outcome]: [Ret v] for a
      normal return, [Raise msg] for an exception whose [str(e)] is [msg];
      [try: ... except Exception as e: ...] is [try_except];
    - code that mutates the persistent Chroma store runs in [io], a state and
      error monad over the store: what was written before an exception or an
      early [return] stays written;
    - the external collaborators (storage engine, file reader, node parser,
      embedding, retrieval, answer synthesis, summarisation) are the
      [Variable]s of the sections: their results are arbitrary, the code
      around them is fixed;
    - similarity scores inside [rag.py] are rationals ([Q]): the ranking only
      sums, divides by a length and compares them.  The comparisons of
      [frontend.py] against the literals [0.7] and [0.5] are modelled on
      binary64 values ([spec_float]), where the boundary behaviour lives. *)

From Stdlib Require Import ZArith QArith String List Sorted Lia.
From Stdlib Require Import SpecFloat.
From stdpp Require Import base option list strings gmap.

Local Open Scope string_scope.
Local Open Scope list_scope.

(** ** Exceptions *)

Inductive outcome (A : Type) : Type :=
| Ret (a : A)
| Raise (msg : string).

Arguments Ret {A} a.
Arguments Raise {A} msg.

#[global] Instance outcome_ret : MRet outcome := @Ret.

#[global] Instance outcome_bind : MBind outcome := fun A B f m =>
  match m with
  | Ret a => f a
  | Raise msg => Raise msg
  end.

(** [try: body  except Exception as e: handler(str(e))] *)
Definition try_except {A} (body : outcome A) (handler : string -> outcome A)
  : outcome A :=
  match body with
  | Ret a => Ret a
  | Raise msg => handler msg
  end.

Definition returns {A} (m : outcome A) : Prop := exists a, m = Ret a.

(** ** frontend.py: relevance bucketing of a source score *)

Module Frontend.

(** Python floats are IEEE-754 binary64. *)
Definition prec : Z := 53.
Definition emax : Z := 1024.

Definition float_of_Z (n : Z) : spec_float :=
  binary_normalize prec emax n 0 false.

(** The decimal literal [n/d] (as in [0.7 = 7/10]): the binary64 value
    nearest to the quotient, which is what correctly rounded division of
    the two exactly representable integers gives. *)
Definition decimal (n d : Z) : spec_float :=
  SFdiv prec emax (float_of_Z n) (float_of_Z d).

Definition lt (x y : spec_float) : bool := SFltb x y.

(** Lines 271-279 and 331-338 of [frontend.py] (the two renderings carry
    the same statements):
<<
    relevance_class = "relevance-high"
    relevance_text = "High Relevance"
    if source['score'] < 0.7:
        relevance_class = "relevance-medium"
        relevance_text = "Medium Relevance"
    if source['score'] < 0.5:
        relevance_class = "relevance-low"
        relevance_text = "Low Relevance"
>> *)
Definition relevance (score : spec_float) : string * string :=
  let r := ("relevance-high", "High Relevance") in
  let r := if lt score (decimal 7 10)
           then ("relevance-medium", "Medium Relevance") else r in
  let r := if lt score (decimal 5 10)
           then ("relevance-low", "Low Relevance") else r in
  r.

Definition high : string * string := ("relevance-high", "High Relevance").
Definition medium : string * string :=
  ("relevance-medium", "Medium Relevance").
Definition low : string * string := ("relevance-low", "Low Relevance").

End Frontend.

(** ** Data model shared by rag.py and main.py *)

(** A retrieved node as [query_document] looks at it: each attribute it
    reads is guarded by [hasattr], so each may be absent; [node_str] is
    [str(node)], used when [text] is absent. *)
Record Node : Type := {
  node_score : option Q;
  node_metadata : option (gmap string string);
  node_text : option string;
  node_str : string
}.

(** One entry of the ["sources"] list of a response. *)
Record Source : Type := {
  source : string;
  text : string;
  score : Q
}.

(** One entry of [best_results]. *)
Record Candidate : Type := {
  answer : string;
  sources : list Source;
  avg_score : Q;
  collection : string
}.

(** The dictionary [{"answer": ..., "sources": ...}] returned by
    [query_document] and by [/ask]. *)
Record Response : Type := {
  r_answer : string;
  r_sources : list Source
}.

Record CollectionInfo : Type := { info_name : string }.

Record Document : Type := { doc_text : string }.

(** The dictionaries stored in [PROCESSING_STATUS]:
    [{"status": "processing", "file": f}],
    [{"status": "failed", "error": e}] and
    [{"status": "completed", "summary": s, "file": f, "index_id": i}]. *)
Inductive TaskInfo : Type :=
| Processing (file : string)
| Failed (error : string)
| Completed (summary file index_id : string).

Definition status (t : TaskInfo) : string :=
  match t with
  | Processing _ => "processing"
  | Failed _ => "failed"
  | Completed _ _ _ => "completed"
  end.

Definition terminal (t : TaskInfo) : bool :=
  match t with
  | Processing _ => false
  | Failed _ | Completed _ _ _ => true
  end.

(** The persistent Chroma store: collection name to stored chunks. *)
Abbreviation ChromaDB := (gmap string (list Node)).

(** ** State and error monad over the Chroma store *)

Definition io (A : Type) : Type := ChromaDB -> outcome A * ChromaDB.

Definition io_ret {A} (a : A) : io A := fun db => (Ret a, db).

Definition io_bind {A B} (m : io A) (f : A -> io B) : io B := fun db =>
  match m db with
  | (Ret a, db') => f a db'
  | (Raise msg, db') => (Raise msg, db')
  end.

(** A call that may raise but does not touch the store. *)
Definition lift {A} (m : outcome A) : io A := fun db => (m, db).

(** [try/except] around store-mutating code: the handler runs in the store
    as the body left it. *)
Definition io_try {A} (body : io A) (handler : string -> io A) : io A :=
  fun db =>
    match body db with
    | (Ret a, db') => (Ret a, db')
    | (Raise msg, db') => handler msg db'
    end.

#[global] Instance io_mret : MRet io := @io_ret.
#[global] Instance io_mbind : MBind io := fun A B f m => io_bind m f.

(** ** rag.py *)

(** The collaborators [query_document] calls; each call may raise. *)
Class Retrieval : Type := {
  Collection : Type;
  Index : Type;
  (** [chroma_client.list_collections()] *)
  list_collections : outcome (list CollectionInfo);
  (** [chroma_client.get_collection(collection_name)] *)
  get_collection : string -> outcome Collection;
  (** [VectorStoreIndex.from_vector_store(ChromaVectorStore(...))] *)
  from_vector_store : Collection -> outcome Index;
  (** [VectorIndexRetriever(index, similarity_top_k).retrieve(question)] *)
  retrieve : Index -> nat -> string -> outcome (list Node);
  (** [PromptTemplate(...)], inside its own [try] *)
  PromptTemplate : outcome string;
  (** [get_response_synthesizer(...).synthesize(QueryBundle(question), nodes)],
      then [.response] *)
  synthesize : string -> string -> list Node -> outcome string
}.

(** The collaborators [process_document] and [generate_summary] call. *)
Class Ingestion : Type := {
  (** the error, if any, with which the storage engine refuses
      [get_or_create_collection(name)] *)
  storage_fault : string -> option string;
  (** the error, if any, raised while wrapping the collection:
      [ChromaVectorStore(chroma_collection=...)] and
      [StorageContext.from_defaults(vector_store=...)] *)
  storage_context_fault : string -> option string;
  (** [SimpleDirectoryReader(input_files=[file_path]).load_data()] *)
  load_data : string -> outcome (list Document);
  (** [SentenceWindowNodeParser.get_nodes_from_documents(documents)] *)
  get_nodes_from_documents : list Document -> outcome (list Node);
  (** the embedding done by [VectorStoreIndex(nodes, storage_context)]:
      the chunks it stores, or the error it raises *)
  embed_nodes : list Node -> outcome (list Node);
  (** [openai_client.chat.completions.create(...)] on the system and user
      messages, then [.choices[0].message.content] *)
  chat_completion : string -> string -> outcome string;
  (** [str.strip] *)
  strip : string -> string
}.

Module Rag.

Local Open Scope Q_scope.

(** [sum(xs)]: left to right from [0]. *)
Definition sum (xs : list Q) : Q := fold_left Qplus xs 0.

(** [total / n] with [n] a length: raises on [n = 0]. *)
Definition div_len (total : Q) (n : nat) : outcome Q :=
  match n with
  | O => Raise "division by zero"
  | S _ => Ret (total / inject_Z (Z.of_nat n))
  end.

(** [x < y] on scores. *)
Definition Qltb (x y : Q) : bool := negb (Qle_bool y x).

(** Line 232:
    [sum(node.score for node in nodes if hasattr(node, 'score')) / len(nodes)] *)
Definition avg_similarity (nodes : list Node) : outcome Q :=
  div_len (sum (omap node_score nodes)) (length nodes).

(** Lines 237-244, the dictionary built for one node. *)
Definition source_of_node (node : Node) : Source :=
  let metadata := default ∅ (node_metadata node) in
  let file_path := default "Unknown"%string (metadata !! "file_path"%string) in
  {| source := file_path;
     text := default (node_str node) (node_text node);
     score := default (1 # 2) (node_score node) |}.

(** [best_results.sort(key=lambda x: x["avg_score"], reverse=True)]: a
    stable sort, descending; candidates of equal score keep their order.
    Written as insertion from the right: a candidate moves behind exactly
    the candidates of strictly greater score. *)
Fixpoint insert_desc (c : Candidate) (l : list Candidate) : list Candidate :=
  match l with
  | [] => [c]
  | d :: l' =>
      if Qltb (avg_score c) (avg_score d)
      then d :: insert_desc c l'
      else c :: l
  end.

Definition sort_desc (l : list Candidate) : list Candidate :=
  fold_right insert_desc [] l.

Definition no_documents : Response :=
  {| r_answer := "No documents have been uploaded yet."; r_sources := [] |}.

Definition no_relevant : Response :=
  {| r_answer := "No relevant information found in the uploaded documents.";
     r_sources := [] |}.

Definition retrieval_error (msg : string) : Response :=
  {| r_answer := "Error during document retrieval: " +:+ msg;
     r_sources := [] |}.

Section Query.
Context `{Retrieval}.
Variable question : string.
Variable top_k : nat.

(** The body of the [for collection_info in collections] loop, lines
    162-251: [None] for the two [continue]s, [Some c] for the candidate
    appended to [best_results]. *)
Definition evaluate (collection_info : CollectionInfo)
  : outcome (option Candidate) :=
  let collection_name := info_name collection_info in
  if negb (String.prefix "doc_" collection_name) then Ret None else
  chroma_collection ← get_collection collection_name;
  index ← from_vector_store chroma_collection;
  nodes ← retrieve index top_k question;
  match nodes with
  | [] => Ret None
  | _ :: _ =>
      qa_template ← try_except PromptTemplate (fun e => Raise e);
      response ← synthesize qa_template question nodes;
      avg ← avg_similarity nodes;
      Ret (Some {| answer := response;
                   sources := map source_of_node nodes;
                   avg_score := avg;
                   collection := collection_name |})
  end.

(** The loop itself, threading [best_results]. *)
Fixpoint fan_out (collections : list CollectionInfo)
  (best_results : list Candidate) : outcome (list Candidate) :=
  match collections with
  | [] => Ret best_results
  | collection_info :: rest =>
      r ← evaluate collection_info;
      match r with
      | None => fan_out rest best_results
      | Some c => fan_out rest (best_results ++ [c])
      end
  end.

(** Lines 151-263, the body of the outer [try]. *)
Definition query_document_body : outcome Response :=
  collections ← list_collections;
  match collections with
  | [] => Ret no_documents
  | _ :: _ =>
      best_results ← fan_out collections [];
      match best_results with
      | [] => Ret no_relevant
      | _ :: _ =>
          match sort_desc best_results with
          | best :: _ =>
              Ret {| r_answer := answer best; r_sources := sources best |}
          | [] => Raise "list index out of range"
          end
      end
  end.

(** [query_document], lines 148-267. *)
Definition query_document : outcome Response :=
  try_except query_document_body (fun e => Ret (retrieval_error e)).

End Query.
End Rag.

Module Ingest.

Definition summary_fallback : string :=
  "Summary generation failed. The document has been processed successfully but no summary is available.".

Definition no_content : string :=
  "No content could be extracted from the document".

Definition system_prompt : string :=
  "You are an expert summarizer. Create a concise summary that captures the key information in the document. Focus on the main topics, key findings, and important details.".

(** The user message of line 77; [text[:4000]] is [substring 0 4000]. *)
Definition user_prompt (text : string) : string :=
  "Please summarize the following document in 4-5 sentences:" +:+
  String (Ascii.ascii_of_nat 10) (String (Ascii.ascii_of_nat 10) (substring 0 4000 text)).

(** [os.path.basename] (POSIX): what follows the last ["/"]. *)
Fixpoint basename_from (cur p : string) : string :=
  match p with
  | EmptyString => cur
  | String c rest =>
      if Ascii.eqb c (Ascii.ascii_of_nat 47)
      then basename_from "" rest
      else basename_from (cur +:+ String c "") rest
  end.

Definition basename (p : string) : string := basename_from "" p.

Section Pipeline.
Context `{Ingestion}.

(** [generate_summary], lines 70-85. *)
Definition generate_summary (text : string) : outcome string :=
  try_except
    (content ← chat_completion system_prompt (user_prompt text);
     Ret (strip content))
    (fun e => Ret summary_fallback).

(** [chroma_client.get_or_create_collection(name)]: an absent
    collection is created empty, an existing one is returned as it is. *)
Definition chroma_get_or_create (collection_name : string) : io string :=
  fun db =>
    match storage_fault collection_name with
    | Some msg => (Raise msg, db)
    | None =>
        match db !! collection_name with
        | Some _ => (Ret collection_name, db)
        | None => (Ret collection_name, <[collection_name := []]> db)
        end
    end.

(** [get_or_create_collection], lines 87-94: logs and re-raises. *)
Definition get_or_create_collection (task_id : string) : io string :=
  io_try (chroma_get_or_create ("doc_" +:+ task_id))
         (fun e => lift (Raise e)).

(** Lines 103-106: the storage context is a handle on the collection. *)
Definition StorageContext (chroma_collection : string) : io string :=
  lift match storage_context_fault chroma_collection with
       | Some msg => Raise msg
       | None => Ret chroma_collection
       end.

(** [VectorStoreIndex(nodes, storage_context)]: embeds the nodes and adds
    them to the collection behind the storage context. *)
Definition VectorStoreIndex (nodes : list Node) (storage_context : string)
  : io unit :=
  fun db =>
    match embed_nodes nodes with
    | Raise msg => (Raise msg, db)
    | Ret chunks =>
        (Ret tt,
         <[storage_context :=
             default [] (db !! storage_context) ++ chunks]> db)
    end.

(** Lines 99-143, the body of the [try] of [process_document]. *)
Definition process_document_body (file_path task_id : string)
  : io TaskInfo :=
  chroma_collection ← get_or_create_collection task_id;
  storage_context ← StorageContext chroma_collection;
  documents ← lift (load_data file_path);
  match documents with
  | [] => mret (Failed no_content)
  | _ :: _ =>
      nodes ← lift (get_nodes_from_documents documents);
      _ ← VectorStoreIndex nodes storage_context;
      let doc_content := String.concat " " (map doc_text documents) in
      summary ← lift (generate_summary doc_content);
      mret (Completed summary (basename file_path) task_id)
  end.

(** [process_document], lines 96-146. *)
Definition process_document (file_path task_id : string) : io TaskInfo :=
  io_try (process_document_body file_path task_id)
         (fun e => mret (Failed e)).

End Pipeline.
End Ingest.

(** ** main.py *)

Module Main.

(** The server state: the Chroma store and the module-level dictionary
    [PROCESSING_STATUS]. *)
Record Server : Type := {
  chroma : ChromaDB;
  PROCESSING_STATUS : gmap string TaskInfo
}.

Section Endpoints.
Context `{Ingestion} `{Retrieval}.

(** [process_and_update_status], lines 66-77. *)
Definition process_and_update_status (task_id file_path : string)
  (s : Server) : Server :=
  match Ingest.process_document file_path task_id (chroma s) with
  | (Ret result, db) =>
      {| chroma := db;
         PROCESSING_STATUS := <[task_id := result]> (PROCESSING_STATUS s) |}
  | (Raise e, db) =>
      {| chroma := db;
         PROCESSING_STATUS := <[task_id := Failed e]> (PROCESSING_STATUS s) |}
  end.

(** [check_task_status], lines 79-85: [None] is the [not_found] reply. *)
Definition check_task_status (task_id : string) (s : Server)
  : option TaskInfo :=
  PROCESSING_STATUS s !! task_id.

(** [ask_question], lines 87-101; [query_document] is called with its
    default [top_k = 4]. *)
Definition ask_question (question : string) : outcome Response :=
  try_except (Rag.query_document question 4)
    (fun e => Ret {| r_answer := "Error: " +:+ e; r_sources := [] |}).

End Endpoints.

(** An HTTP reply: status 200 with its JSON body, or an [HTTPException]. *)
Inductive Http (A : Type) : Type :=
| Ok (body : A)
| HTTPException (status_code : nat) (detail : string).

Arguments Ok {A} body.
Arguments HTTPException {A} status_code detail.

Definition UPLOAD_FOLDER : string := "uploads".

Fixpoint ends_with_slash (p : string) : bool :=
  match p with
  | EmptyString => false
  | String c EmptyString => Ascii.eqb c (Ascii.ascii_of_nat 47)
  | String _ rest => ends_with_slash rest
  end.

(** ["/" in p] *)
Fixpoint contains_slash (p : string) : bool :=
  match p with
  | EmptyString => false
  | String c rest => Ascii.eqb c (Ascii.ascii_of_nat 47) || contains_slash rest
  end.

(** [os.path.join(a, b)] (POSIX): an absolute [b] replaces [a]; a separator
    is added unless [a] is empty or already ends with one. *)
Definition path_join (a b : string) : string :=
  if String.prefix "/" b then b
  else if String.eqb a "" || ends_with_slash a then a +:+ b
  else a +:+ "/" +:+ b.

(** [upload_file], lines 41-64.  [task_id] is the fresh [str(uuid.uuid4())],
    [filename] is [file.filename] and [saved] is the outcome of writing the
    uploaded bytes to [file_path].  The second component is the call handed
    to [background_tasks.add_task], run after the reply is sent. *)
Definition upload_file (task_id filename : string) (saved : outcome unit)
  (s : Server) : Http string * option (string * string) * Server :=
  let file_path := path_join UPLOAD_FOLDER (task_id +:+ "_" +:+ filename) in
  match saved with
  | Ret _ =>
      (Ok task_id,
       Some (task_id, file_path),
       {| chroma := chroma s;
          PROCESSING_STATUS :=
            <[task_id := Processing filename]> (PROCESSING_STATUS s) |})
  | Raise e =>
      (HTTPException 500 ("Error processing file: " +:+ e),
       None,
       {| chroma := chroma s;
          PROCESSING_STATUS :=
            <[task_id := Failed e]> (PROCESSING_STATUS s) |})
  end.

(** The scheduled background call, if any, is run. *)
Definition run_background `{Ingestion} (task : option (string * string))
  (s : Server) : Server :=
  match task with
  | Some (task_id, file_path) => process_and_update_status task_id file_path s
  | None => s
  end.

(** The two 200 bodies of [/summary/{task_id}]. *)
Inductive SummaryReply : Type :=
| Summary (summary file : string)
| NotCompleted (error : string).

(** [get_document_summary], lines 108-119. *)
Definition get_document_summary (task_id : string) (s : Server)
  : Http SummaryReply :=
  match PROCESSING_STATUS s !! task_id with
  | Some (Completed summary file _) => Ok (Summary summary file)
  | Some t =>
      Ok (NotCompleted
            ("Document processing not completed: " +:+ status t))
  | None => HTTPException 404 "Task ID not found"
  end.

End Main.

(** ** Concrete collaborators, used to run the code on explicit inputs *)

Module Scenario.

Definition chunk (file_path body : string) (s : option Q) : Node :=
  {| node_score := s;
     node_metadata := Some {[ "file_path" := file_path ]};
     node_text := Some body;
     node_str := body |}.

(** A store whose handles are the collection names: enumeration gives
    [collections], retrieval from a collection is read off [contents], and
    the synthesized answer names the first retrieved chunk. *)
Definition store (collections : outcome (list CollectionInfo))
  (contents : string -> outcome (list Node)) : Retrieval :=
  {| Collection := string;
     Index := string;
     list_collections := collections;
     get_collection := fun name => Ret name;
     from_vector_store := fun c => Ret c;
     retrieve := fun index _ _ => contents index;
     PromptTemplate := Ret "answer the question: {query_str}";
     synthesize := fun _ _ nodes =>
       Ret ("According to " +:+
            default "nothing" (head nodes ≫= node_text)) |}.

Definition doc_a : CollectionInfo := {| info_name := "doc_a" |}.
Definition doc_b : CollectionInfo := {| info_name := "doc_b" |}.

Definition chunk_a : Node := chunk "uploads/a.txt" "alpha" (Some (8 # 10)).
Definition chunk_b : Node := chunk "uploads/b.txt" "beta" (Some (8 # 10)).

(** Two collections; retrieval from the first one raises. *)
Definition first_store_down : Retrieval :=
  store (Ret [doc_a; doc_b])
    (fun name => if String.eqb name "doc_a"
                 then Raise "connection reset" else Ret [chunk_b]).

(** Two collections whose candidates have the same average score. *)
Definition tied : Retrieval :=
  store (Ret [doc_a; doc_b])
    (fun name => if String.eqb name "doc_a"
                 then Ret [chunk_a] else Ret [chunk_b]).

(** What the fan-out over [tied] collects, in enumeration order. *)
Definition tied_results : list Candidate :=
  [ {| answer := "According to alpha";
       sources := [ {| source := "uploads/a.txt"; text := "alpha";
                       score := 8 # 10 |} ];
       avg_score := 8 # 10;
       collection := "doc_a" |};
    {| answer := "According to beta";
       sources := [ {| source := "uploads/b.txt"; text := "beta";
                       score := 8 # 10 |} ];
       avg_score := 8 # 10;
       collection := "doc_b" |} ].

(** No collection at all. *)
Definition no_collections : Retrieval := store (Ret []) (fun _ => Ret []).

(** Two collections, neither retrieves a chunk. *)
Definition nothing_retrieved : Retrieval :=
  store (Ret [doc_a; doc_b]) (fun _ => Ret []).

(** The enumeration itself fails. *)
Definition enumeration_down : Retrieval :=
  store (Raise "database is locked") (fun _ => Ret []).

(** A retrieval of two nodes, the second without a [score] attribute. *)
Definition half_scored : list Node :=
  [chunk "uploads/a.txt" "alpha" (Some (9 # 10));
   chunk "uploads/a.txt" "gamma" None].

(** An ingestion whose reader extracts [documents] from every file and
    whose summariser answers [summary]. *)
Definition ingestion (documents : list Document) (summary : outcome string)
  : Ingestion :=
  {| storage_fault := fun _ => None;
     storage_context_fault := fun _ => None;
     load_data := fun _ => Ret documents;
     get_nodes_from_documents := fun docs =>
       Ret (map (fun d => {| node_score := None; node_metadata := None;
                             node_text := Some (doc_text d);
                             node_str := doc_text d |}) docs);
     embed_nodes := fun nodes => Ret nodes;
     chat_completion := fun _ _ => summary;
     strip := fun s => s |}.

Definition empty_file : Ingestion := ingestion [] (Ret "unused").

Definition summariser_down : Ingestion :=
  ingestion [{| doc_text := "One sentence." |}] (Raise "rate limit exceeded").

(** A registry in which task [t1] already completed. *)
Definition finished : Main.Server :=
  {| Main.chroma := {[ "doc_t1" := [] ]};
     Main.PROCESSING_STATUS :=
       {[ "t1" := Completed "A summary." "a.txt" "t1" ]} |}.

End Scenario.

(** ** Specification-side notions *)

Module Spec.

(** The arithmetic mean of the individual scores of a list of sources, as
    the specification words it (and as [frontend.py], line 321, computes
    it from a response). *)
Definition mean_of_sources (srcs : list Source) : Q :=
  (Rag.sum (map score srcs) / inject_Z (Z.of_nat (length srcs)))%Q.

End Spec.

(** ** frontend.py: the upload poll and the session statistics *)

Module Client.

(** What one [POST /check_task_status/] gives the client: the request
    raises, the status code is not 200, [.json()] raises, or a body is
    parsed, of which the keys ["status"], ["file"] and ["error"] are read. *)
Inductive StatusResponse : Type :=
| StatusRequestError (msg : string)
| StatusNot200
| StatusBadBody (msg : string)
| StatusData (status file error : option string).

(** The same for [GET /summary/{task_id}]; the key read is ["summary"]. *)
Inductive SummaryResponse : Type :=
| SummaryRequestError (msg : string)
| SummaryNot200
| SummaryBadBody (msg : string)
| SummaryData (summary : option string).

(** An entry of [st.session_state.document_info]. *)
Record DocumentInfo : Type := {
  task_id : string;
  filename : string;
  summary : string
}.

(** How the wait for one uploaded file ends. *)
Inductive PollOutcome : Type :=
| Processed (entry : DocumentInfo)
| ProcessingFailed (error : string)
| StatusError (msg : string)
| StatusCheckFailed
| TimedOut
| Aborted (msg : string).

Definition max_retries : nat := 60.

Section Poll.
Variable uploaded_name : string.
Variable task : string.
(** The reply to the status request sent when [retries] has the given
    value, and the reply to the summary request. *)
Variable status_response : nat -> StatusResponse.
Variable summary_response : SummaryResponse.

(** Lines 180-206: the entry appended once the status is ["completed"];
    every path through the inner [try] appends exactly one. *)
Definition completed_entry (file : option string) : DocumentInfo :=
  {| task_id := task;
     filename := default uploaded_name file;
     summary :=
       match summary_response with
       | SummaryData s => default "No summary available" s
       | SummaryNot200 | SummaryRequestError _ | SummaryBadBody _ =>
           "Summary not available"
       end |}.

(** One round of the loop body, lines 169-227: [None] when the round ends
    in [retries += 1], the outcome when it ends in [break] or raises. *)
Definition round (response : StatusResponse) : option PollOutcome :=
  match response with
  | StatusRequestError msg => Some (Aborted msg)
  | StatusNot200 => Some StatusCheckFailed
  | StatusBadBody msg => Some (StatusError msg)
  | StatusData None _ _ => Some (StatusError "Missing status in response")
  | StatusData (Some st) file error =>
      if String.eqb st "completed" then Some (Processed (completed_entry file))
      else if String.eqb st "failed"
           then Some (ProcessingFailed (default "Unknown error" error))
           else None
  end.

(** [while retries < max_retries: ...] followed by the [retries >=
    max_retries] test, with [remaining = max_retries - retries] rounds
    left. *)
Fixpoint poll_from (remaining retries : nat) : PollOutcome :=
  match remaining with
  | O => TimedOut
  | S remaining' =>
      match round (status_response retries) with
      | Some outcome => outcome
      | None => poll_from remaining' (S retries)
      end
  end.

Definition poll : PollOutcome := poll_from max_retries 0.

End Poll.

(** [total_questions] and [avg_relevance] of the session state; the average
    is taken in exact arithmetic. *)
Record Stats : Type := {
  total_questions : nat;
  avg_relevance : Q
}.

Definition initial : Stats := {| total_questions := 0; avg_relevance := 0 |}.

(** Lines 316-325, on the scores of the sources of one answer. *)
Definition record_answer (scores : list Q) (st : Stats) : Stats :=
  let question_count := S (total_questions st) in
  {| total_questions := question_count;
     avg_relevance :=
       match scores with
       | [] => avg_relevance st
       | _ :: _ =>
           let avg_source_relevance :=
             (Rag.sum scores / inject_Z (Z.of_nat (length scores)))%Q in
           let current_avg := avg_relevance st in
           ((current_avg * (inject_Z (Z.of_nat question_count) - 1)
             + avg_source_relevance)
            / inject_Z (Z.of_nat question_count))%Q
       end |}.

End Client.

(** * Properties *)

(** ** Exceptions *)

(** One step of the monadic code: a bind or a handler meeting a result. *)
Ltac run := cbn [mbind mret outcome_bind outcome_ret try_except].

(** ** Scores *)

Lemma Qltb_lt (x y : Q) : Rag.Qltb x y = true <-> (x < y)%Q.
Proof.
  unfold Rag.Qltb. rewrite negb_true_iff.
  split.
  - intros Hle. apply Qnot_le_lt. intros Hyx.
    apply Qle_bool_iff in Hyx. congruence.
  - intros Hlt. destruct (Qle_bool y x) eqn:E; [|reflexivity].
    apply Qle_bool_iff in E. exfalso. exact (Qlt_not_le _ _ Hlt E).
Qed.

Lemma Qltb_ge (x y : Q) : Rag.Qltb x y = false <-> (y <= x)%Q.
Proof.
  unfold Rag.Qltb. rewrite negb_false_iff. apply Qle_bool_iff.
Qed.

(** ** The stable descending sort of [best_results] *)

Lemma head_insert_desc (c : Candidate) (l : list Candidate) :
  head (Rag.insert_desc c l) =
  Some match head l with
       | None => c
       | Some h => if Rag.Qltb (avg_score c) (avg_score h) then h else c
       end.
Proof.
  destruct l as [|d l]; simpl; [reflexivity|].
  destruct (Rag.Qltb (avg_score c) (avg_score d)); reflexivity.
Qed.

Lemma sort_desc_cons (c : Candidate) (l : list Candidate) :
  Rag.sort_desc (c :: l) = Rag.insert_desc c (Rag.sort_desc l).
Proof. reflexivity. Qed.

Lemma sort_desc_head_some (l : list Candidate) :
  l <> [] -> exists best, head (Rag.sort_desc l) = Some best.
Proof.
  destruct l as [|c l]; [congruence|]. intros _.
  rewrite sort_desc_cons, head_insert_desc. eauto.
Qed.

(** The candidate the sort puts first has the greatest score, and every
    candidate enumerated before it has a strictly smaller one. *)
Lemma sort_desc_head_first_max (l : list Candidate) (best : Candidate) :
  head (Rag.sort_desc l) = Some best ->
  exists pre post,
    l = pre ++ best :: post /\
    Forall (fun c => (avg_score c < avg_score best)%Q) pre /\
    Forall (fun c => (avg_score c <= avg_score best)%Q) post.
Proof.
  revert best. induction l as [|x xs IH]; intros best Hhead.
  - discriminate.
  - rewrite sort_desc_cons, head_insert_desc in Hhead.
    destruct (head (Rag.sort_desc xs)) as [h|] eqn:Hxs.
    + destruct (IH h eq_refl) as (pre & post & -> & Hpre & Hpost).
      destruct (Rag.Qltb (avg_score x) (avg_score h)) eqn:Hlt;
        injection Hhead as <-.
      * apply Qltb_lt in Hlt.
        exists (x :: pre), post. repeat split; auto.
      * apply Qltb_ge in Hlt.
        exists [], (pre ++ h :: post). repeat split; auto.
        apply Forall_app. split; [|apply Forall_cons; split; [exact Hlt|]].
        -- eapply Forall_impl; [exact Hpre|]. simpl. intros c Hc.
           apply Qlt_le_weak. eapply Qlt_le_trans; eassumption.
        -- eapply Forall_impl; [exact Hpost|]. simpl. intros c Hc.
           eapply Qle_trans; eassumption.
    + injection Hhead as <-.
      destruct xs as [|y ys].
      * exists [], []. repeat split; auto.
      * exfalso. destruct (sort_desc_head_some (y :: ys)) as [b Hb];
          congruence.
Qed.

Lemma insert_desc_perm (c : Candidate) (l : list Candidate) :
  Rag.insert_desc c l ≡ₚ c :: l.
Proof.
  induction l as [|d l IH]; simpl; [reflexivity|].
  destruct (Rag.Qltb (avg_score c) (avg_score d)); [|reflexivity].
  rewrite IH. apply perm_swap.
Qed.

(** The sort only reorders [best_results]. *)
Lemma sort_desc_perm (l : list Candidate) : Rag.sort_desc l ≡ₚ l.
Proof.
  induction l as [|c l IH]; [reflexivity|].
  rewrite sort_desc_cons, insert_desc_perm, IH. reflexivity.
Qed.

Lemma insert_desc_max (c : Candidate) (l : list Candidate) :
  Forall (fun d => (avg_score d <= avg_score c)%Q) l ->
  Rag.insert_desc c l = c :: l.
Proof.
  intros Hall. destruct l as [|d l]; simpl; [reflexivity|].
  apply Forall_cons in Hall as [Hd _].
  apply Qltb_ge in Hd. rewrite Hd. reflexivity.
Qed.

(** Conversely the first maximum is what the sort puts first. *)
Lemma first_max_sort_desc_head (pre post : list Candidate) (best : Candidate) :
  Forall (fun c => (avg_score c < avg_score best)%Q) pre ->
  Forall (fun c => (avg_score c <= avg_score best)%Q) post ->
  exists rest, Rag.sort_desc (pre ++ best :: post) = best :: rest.
Proof.
  intros Hpre Hpost.
  induction Hpre as [|x xs Hx Hxs IH]; cbn [app].
  - rewrite sort_desc_cons, insert_desc_max; [eauto|].
    rewrite sort_desc_perm. exact Hpost.
  - destruct IH as [rest IH]. rewrite sort_desc_cons, IH. simpl.
    apply Qltb_lt in Hx. rewrite Hx. eauto.
Qed.

(** ** The fan-out over the collections *)

Section FanOut.
Context `{Retrieval}.
Variable question : string.
Variable top_k : nat.

Abbreviation evaluate := (Rag.evaluate question top_k).
Abbreviation fan_out := (Rag.fan_out question top_k).

(** Where a candidate comes from: one collection, the nodes retrieved
    from it, and nothing else. *)
Lemma evaluate_candidate (info : CollectionInfo) (c : Candidate) :
  evaluate info = Ret (Some c) ->
  exists chroma_collection index nodes,
    get_collection (info_name info) = Ret chroma_collection /\
    from_vector_store chroma_collection = Ret index /\
    retrieve index top_k question = Ret nodes /\
    nodes <> [] /\
    Rag.avg_similarity nodes = Ret (avg_score c) /\
    sources c = map Rag.source_of_node nodes /\
    collection c = info_name info.
Proof.
  unfold Rag.evaluate.
  destruct (String.prefix "doc_" (info_name info)); cbn [negb];
    [|discriminate].
  destruct (get_collection (info_name info)) as [coll|] eqn:Hc; run;
    [|discriminate].
  destruct (from_vector_store coll) as [idx|] eqn:Hi; run; [|discriminate].
  destruct (retrieve idx top_k question) as [[|n nodes]|] eqn:Hr; run;
    try discriminate.
  destruct PromptTemplate as [tpl|]; run; [|discriminate].
  destruct (synthesize tpl question (n :: nodes)) as [resp|]; run;
    [|discriminate].
  destruct (Rag.avg_similarity (n :: nodes)) as [avg|] eqn:Havg; run;
    [|discriminate].
  intros Heq. simplify_eq. exists coll, idx, (n :: nodes).
  cbn [avg_score sources collection].
  repeat split; done.
Qed.

(** A collection whose retrieval returns no node contributes nothing. *)
Lemma evaluate_no_nodes (info : CollectionInfo) chroma_collection index :
  get_collection (info_name info) = Ret chroma_collection ->
  from_vector_store chroma_collection = Ret index ->
  retrieve index top_k question = Ret [] ->
  evaluate info = Ret None.
Proof.
  intros Hc Hi Hr. unfold Rag.evaluate.
  destruct (String.prefix "doc_" (info_name info)); simpl; [|reflexivity].
  rewrite Hc; simpl. rewrite Hi; simpl. rewrite Hr. reflexivity.
Qed.

Lemma evaluate_skips_foreign (info : CollectionInfo) :
  String.prefix "doc_" (info_name info) = false -> evaluate info = Ret None.
Proof. intros Hp. unfold Rag.evaluate. rewrite Hp. reflexivity. Qed.

Lemma fan_out_cons (info : CollectionInfo) (rest : list CollectionInfo)
  (best_results : list Candidate) :
  fan_out (info :: rest) best_results =
  match evaluate info with
  | Ret None => fan_out rest best_results
  | Ret (Some c) => fan_out rest (best_results ++ [c])
  | Raise e => Raise e
  end.
Proof. simpl. destruct (evaluate info) as [[c|]|e]; reflexivity. Qed.

(** An exception in one collection ends the loop with that exception,
    whatever was collected before and whatever remains to be evaluated. *)
Lemma fan_out_raise (pre post : list CollectionInfo) (info : CollectionInfo)
  (best_results : list Candidate) (e : string) :
  Forall (fun i => returns (evaluate i)) pre ->
  evaluate info = Raise e ->
  fan_out (pre ++ info :: post) best_results = Raise e.
Proof.
  intros Hpre Hraise. revert best_results.
  induction Hpre as [|i pre [r Hi] _ IH]; intros best_results; cbn [app];
    rewrite fan_out_cons.
  - rewrite Hraise. reflexivity.
  - rewrite Hi. destruct r; apply IH.
Qed.

(** Collections that contribute nothing leave [best_results] as it is. *)
Lemma fan_out_nothing (collections : list CollectionInfo)
  (best_results : list Candidate) :
  Forall (fun i => evaluate i = Ret None) collections ->
  fan_out collections best_results = Ret best_results.
Proof.
  induction 1 as [|i l Hi _ IH]; [reflexivity|].
  rewrite fan_out_cons, Hi. exact IH.
Qed.

(** The loop only appends, one candidate per contributing collection, in
    the order of the enumeration. *)
Lemma fan_out_appends (collections : list CollectionInfo)
  (best_results results : list Candidate) :
  fan_out collections best_results = Ret results ->
  exists new,
    results = best_results ++ new /\
    Forall (fun c => exists i, i ∈ collections /\ evaluate i = Ret (Some c))
           new /\
    sublist (map collection new) (map info_name collections).
Proof.
  revert best_results. induction collections as [|i l IH];
    intros best_results.
  - simpl. intros [= <-]. exists []. rewrite app_nil_r.
    repeat split; constructor.
  - rewrite fan_out_cons.
    destruct (evaluate i) as [[c|]|e] eqn:Hi; [| |discriminate].
    + intros Hrest. destruct (IH _ Hrest) as (new & -> & Hall & Hsub).
      exists (c :: new). rewrite <- app_assoc. repeat split.
      * apply Forall_cons. split.
        -- exists i. split; [left|exact Hi].
        -- eapply Forall_impl; [exact Hall|]. simpl.
           intros d (j & Hj & Hd). exists j. split; [right|]; assumption.
      * cbn [map].
        destruct (evaluate_candidate i c Hi)
          as (cc & ii & nn & _ & _ & _ & _ & _ & _ & Hcol).
        rewrite Hcol. apply sublist_skip. exact Hsub.
    + intros Hrest. destruct (IH _ Hrest) as (new & -> & Hall & Hsub).
      exists new. repeat split.
      * eapply Forall_impl; [exact Hall|]. simpl.
        intros d (j & Hj & Hd). exists j. split; [right|]; assumption.
      * cbn [map]. apply sublist_cons. exact Hsub.
Qed.

(** The four ways [query_document] ends. *)
Lemma query_document_cases :
  (exists e,
      Rag.query_document_body question top_k = Raise e /\
      Rag.query_document question top_k = Ret (Rag.retrieval_error e)) \/
  (list_collections = Ret [] /\
   Rag.query_document question top_k = Ret Rag.no_documents) \/
  (exists collections,
      list_collections = Ret collections /\
      fan_out collections [] = Ret [] /\
      Rag.query_document question top_k = Ret Rag.no_relevant) \/
  (exists collections results best,
      list_collections = Ret collections /\
      fan_out collections [] = Ret results /\
      head (Rag.sort_desc results) = Some best /\
      Rag.query_document question top_k =
        Ret {| r_answer := answer best; r_sources := sources best |}).
Proof.
  unfold Rag.query_document, Rag.query_document_body.
  destruct list_collections as [[|i l]|e] eqn:Hl; run.
  - right. left. auto.
  - destruct (fan_out (i :: l) []) as [[|c cs]|e] eqn:Hf; run.
    + right. right. left. exists (i :: l). auto.
    + destruct (sort_desc_head_some (c :: cs)) as [best Hbest];
        [discriminate|].
      destruct (Rag.sort_desc (c :: cs)) as [|b bs] eqn:Hs;
        [discriminate|].
      injection Hbest as ->.
      right. right. right. exists (i :: l), (c :: cs), best.
      rewrite Hs. auto.
    + left. exists e. auto.
  - left. exists e. auto.
Qed.

End FanOut.

(** ** [query_document] and [/ask] *)

Section QueryDocument.
Context `{Retrieval}.
Variable question : string.
Variable top_k : nat.

Abbreviation evaluate := (Rag.evaluate question top_k).
Abbreviation fan_out := (Rag.fan_out question top_k).
Abbreviation query_document := (Rag.query_document question top_k).

(** C1, as the code has it.  When the evaluation of one collection raises
    (the collections enumerated before it having been evaluated without an
    exception), the loop is left at once: [query_document] returns the
    response whose answer is "Error during document retrieval: " followed by
    the message and whose sources are empty, whatever the earlier
    collections contributed and whatever collections remain. *)
Theorem query_document_store_error_aborts
  (pre post : list CollectionInfo) (info : CollectionInfo) (e : string) :
  list_collections = Ret (pre ++ info :: post) ->
  Forall (fun i => returns (evaluate i)) pre ->
  evaluate info = Raise e ->
  query_document =
    Ret {| r_answer := "Error during document retrieval: " +:+ e;
           r_sources := [] |}.
Proof.
  intros Hl Hpre Hraise.
  unfold Rag.query_document, Rag.query_document_body.
  rewrite Hl; run.
  rewrite (fan_out_raise question top_k pre post info [] e Hpre Hraise).
  destruct pre; reflexivity.
Qed.

(** C6.  When the fan-out produced a non-empty list of candidates, the
    response carries the answer and the sources of a candidate [best] whose
    [avg_score] no candidate exceeds and which every candidate enumerated
    before it falls strictly short of: the first of the candidates with the
    highest score.  The candidates stand in the order in which their
    collections were enumerated. *)
Theorem query_document_returns_first_best
  (collections : list CollectionInfo) (results : list Candidate) :
  list_collections = Ret collections ->
  fan_out collections [] = Ret results ->
  results <> [] ->
  exists pre best post,
    results = pre ++ best :: post /\
    Forall (fun c => (avg_score c < avg_score best)%Q) pre /\
    Forall (fun c => (avg_score c <= avg_score best)%Q) post /\
    sublist (map collection results) (map info_name collections) /\
    query_document =
      Ret {| r_answer := answer best; r_sources := sources best |}.
Proof.
  intros Hl Hf Hne.
  destruct (sort_desc_head_some results Hne) as [best Hbest].
  destruct (sort_desc_head_first_max results best Hbest)
    as (pre & post & Heq & Hpre & Hpost).
  exists pre, best, post. repeat split; try assumption.
  - destruct (fan_out_appends question top_k _ _ _ Hf)
      as (new & Hnew & _ & Hsub).
    rewrite Hnew. exact Hsub.
  - unfold Rag.query_document, Rag.query_document_body.
    rewrite Hl; run.
    destruct collections as [|i l].
    + simpl in Hf. congruence.
    + rewrite Hf; run. destruct results as [|c cs]; [congruence|].
      destruct (Rag.sort_desc (c :: cs)) as [|b bs]; [discriminate|].
      simpl in Hbest. injection Hbest as ->. reflexivity.
Qed.

(** C7.  [query_document] always returns a response, and its sources are
    either empty or exactly the sources built from the nodes that one
    retrieval, from one enumerated collection, returned. *)
Theorem query_document_sources_from_one_collection :
  exists r,
    query_document = Ret r /\
    (r_sources r = [] \/
     exists collections info chroma_collection index nodes,
       list_collections = Ret collections /\
       info ∈ collections /\
       get_collection (info_name info) = Ret chroma_collection /\
       from_vector_store chroma_collection = Ret index /\
       retrieve index top_k question = Ret nodes /\
       r_sources r = map Rag.source_of_node nodes).
Proof.
  destruct (query_document_cases question top_k)
    as [(e & _ & Hq) | [(_ & Hq) | [(cols & _ & _ & Hq)
       | (cols & results & best & Hl & Hf & Hbest & Hq)]]];
    rewrite Hq; eexists; (split; [reflexivity|]); try (left; reflexivity).
  right. cbn [r_sources].
  destruct (sort_desc_head_first_max results best Hbest)
    as (pre & post & Heq & _ & _).
  destruct (fan_out_appends question top_k _ _ _ Hf)
    as (new & Hnew & Hall & _).
  cbn [app] in Hnew. subst new.
  rewrite Forall_forall in Hall.
  destruct (Hall best) as (info & Hin & Hev); [rewrite Heq; set_solver|].
  destruct (evaluate_candidate question top_k info best Hev)
    as (coll & idx & nodes & Hc & Hi & Hr & _ & _ & Hs & _).
  exists cols, info, coll, idx, nodes. auto 10.
Qed.

(** C8.  With no collection enumerated the response is the fixed "no
    documents" answer; with collections enumerated, each of which (when its
    name starts with "doc_") loads and retrieves no node, it is the fixed
    "no relevant information" answer.  Both carry no source and both are
    normal returns. *)
Theorem query_document_nothing_to_return (collections : list CollectionInfo) :
  list_collections = Ret collections ->
  Forall (fun i =>
            String.prefix "doc_" (info_name i) = true ->
            exists chroma_collection index,
              get_collection (info_name i) = Ret chroma_collection /\
              from_vector_store chroma_collection = Ret index /\
              retrieve index top_k question = Ret []) collections ->
  (collections = [] ->
   query_document =
     Ret {| r_answer := "No documents have been uploaded yet.";
            r_sources := [] |}) /\
  (collections <> [] ->
   query_document =
     Ret {| r_answer :=
              "No relevant information found in the uploaded documents.";
            r_sources := [] |}).
Proof.
  intros Hl Hall.
  unfold Rag.query_document, Rag.query_document_body. rewrite Hl; run.
  split.
  - intros ->. reflexivity.
  - intros Hne. destruct collections as [|i l]; [congruence|].
    rewrite fan_out_nothing; [reflexivity|].
    eapply Forall_impl; [exact Hall|]. cbn beta. intros j Hj.
    destruct (String.prefix "doc_" (info_name j)) eqn:Hp.
    + destruct (Hj eq_refl) as (coll & idx & Hc & Hi & Hr).
      eapply evaluate_no_nodes; eassumption.
    + apply evaluate_skips_foreign. exact Hp.
Qed.

(** C9.  [/ask] never raises: it always returns a response.  When the body
    of [query_document] fails as a whole - in particular when the
    enumeration of the collections itself raises - that response has the
    answer "Error during document retrieval: " followed by the message, and
    no sources. *)
Theorem ask_question_never_raises :
  exists r,
    Main.ask_question question = Ret r /\
    (forall e,
        Rag.query_document_body question 4 = Raise e ->
        r = {| r_answer := "Error during document retrieval: " +:+ e;
               r_sources := [] |}) /\
    (forall e,
        list_collections = Raise e ->
        r = {| r_answer := "Error during document retrieval: " +:+ e;
               r_sources := [] |}).
Proof.
  unfold Main.ask_question, Rag.query_document.
  destruct (Rag.query_document_body question 4) as [r|msg] eqn:Hb; run.
  - exists r. split; [reflexivity|]. split; [discriminate|].
    intros e He. unfold Rag.query_document_body in Hb.
    rewrite He in Hb. discriminate.
  - eexists. split; [reflexivity|]. split.
    + intros e [= ->]. reflexivity.
    + intros e He. unfold Rag.query_document_body in Hb.
      rewrite He in Hb. injection Hb as ->. reflexivity.
Qed.

End QueryDocument.

(** *** The code run on explicit stores *)

(** C1, as stated, fails: retrieval from [doc_a] raises, [doc_b] alone
    would contribute a candidate, and yet the fan-out over both ends with
    the exception and the response is the error answer, not the answer
    from [doc_b]. *)
Lemma store_error_aborts_the_query :
  @Rag.evaluate Scenario.first_store_down "q" 4 Scenario.doc_a
    = Raise "connection reset" /\
  (exists c, @Rag.fan_out Scenario.first_store_down "q" 4 [Scenario.doc_b] []
               = Ret [c] /\ answer c = "According to beta") /\
  @Rag.fan_out Scenario.first_store_down "q" 4
    [Scenario.doc_a; Scenario.doc_b] [] = Raise "connection reset" /\
  @Rag.query_document Scenario.first_store_down "q" 4 =
    Ret {| r_answer := "Error during document retrieval: connection reset";
           r_sources := [] |}.
Proof.
  split; [reflexivity|]. split; [|split; reflexivity].
  eexists. split; reflexivity.
Qed.

(** The theorem for C1 on the store whose first collection is down. *)
Lemma query_document_store_error_aborts_witness :
  @Rag.query_document Scenario.first_store_down "q" 4 =
    Ret {| r_answer := "Error during document retrieval: connection reset";
           r_sources := [] |}.
Proof.
  apply (@query_document_store_error_aborts Scenario.first_store_down "q" 4
           [] [Scenario.doc_b] Scenario.doc_a "connection reset").
  - reflexivity.
  - constructor.
  - reflexivity.
Defined.

(** The theorem for C6 on two collections of equal average score. *)
Lemma query_document_returns_first_best_witness :
  exists pre best post,
    Scenario.tied_results = pre ++ best :: post /\
    Forall (fun c => (avg_score c < avg_score best)%Q) pre /\
    Forall (fun c => (avg_score c <= avg_score best)%Q) post /\
    sublist (map collection Scenario.tied_results)
            (map info_name [Scenario.doc_a; Scenario.doc_b]) /\
    @Rag.query_document Scenario.tied "q" 4 =
      Ret {| r_answer := answer best; r_sources := sources best |}.
Proof.
  apply (@query_document_returns_first_best Scenario.tied "q" 4
           [Scenario.doc_a; Scenario.doc_b] Scenario.tied_results).
  - reflexivity.
  - reflexivity.
  - discriminate.
Defined.

(** On a tie the first-enumerated collection is the one answered from. *)
Example tie_goes_to_the_first_collection :
  @Rag.query_document Scenario.tied "q" 4 =
    Ret {| r_answer := "According to alpha";
           r_sources := [ {| source := "uploads/a.txt"; text := "alpha";
                             score := 8 # 10 |} ] |}.
Proof. reflexivity. Qed.

(** The theorem for C8 on two collections that retrieve nothing. *)
Lemma query_document_nothing_to_return_witness :
  ([Scenario.doc_a; Scenario.doc_b] = [] ->
   @Rag.query_document Scenario.nothing_retrieved "q" 4 =
     Ret {| r_answer := "No documents have been uploaded yet.";
            r_sources := [] |}) /\
  ([Scenario.doc_a; Scenario.doc_b] <> [] ->
   @Rag.query_document Scenario.nothing_retrieved "q" 4 =
     Ret {| r_answer :=
              "No relevant information found in the uploaded documents.";
            r_sources := [] |}).
Proof.
  apply (@query_document_nothing_to_return Scenario.nothing_retrieved "q" 4
           [Scenario.doc_a; Scenario.doc_b]).
  - reflexivity.
  - repeat constructor.
    + intros _. exists "doc_a", "doc_a". repeat split.
    + intros _. exists "doc_b", "doc_b". repeat split.
Defined.

Example no_collections_answer :
  @Rag.query_document Scenario.no_collections "q" 4 =
    Ret {| r_answer := "No documents have been uploaded yet.";
           r_sources := [] |}.
Proof. reflexivity. Qed.

(** The theorem for C9 on a store whose enumeration raises. *)
Lemma ask_question_never_raises_witness :
  @Main.ask_question Scenario.enumeration_down "q" =
    Ret {| r_answer := "Error during document retrieval: database is locked";
           r_sources := [] |}.
Proof.
  destruct (@ask_question_never_raises Scenario.enumeration_down "q")
    as (r & Hr & _ & Hlist).
  rewrite Hr. f_equal. apply Hlist. reflexivity.
Defined.

(** ** Ingestion: [generate_summary], [process_document] and the registry *)

Ltac run_io :=
  unfold Ingest.process_document, Ingest.process_document_body,
    Ingest.get_or_create_collection, Ingest.chroma_get_or_create,
    Ingest.StorageContext, Ingest.VectorStoreIndex, io_try, lift,
    mbind, mret, io_mbind, io_mret, io_bind, io_ret;
  cbn beta iota.

(** The run has reached a [return] or the handler: read off the result. *)
Ltac ended :=
  solve [cbn beta iota; do 2 eexists; split; reflexivity].

Section IngestionPipeline.
Context `{Ingestion}.

(** [generate_summary] swallows every exception of the summariser. *)
Lemma generate_summary_returns (doc_content : string) :
  exists summary, Ingest.generate_summary doc_content = Ret summary.
Proof.
  unfold Ingest.generate_summary.
  destruct (chat_completion _ _); run; eauto.
Qed.

Lemma generate_summary_fallback (doc_content e : string) :
  chat_completion Ingest.system_prompt (Ingest.user_prompt doc_content)
    = Raise e ->
  Ingest.generate_summary doc_content = Ret Ingest.summary_fallback.
Proof.
  intros He. unfold Ingest.generate_summary. rewrite He. reflexivity.
Qed.

(** [process_document] never raises, and what it returns is a terminal
    record: [failed] or [completed], never [processing]. *)
Lemma process_document_terminal (file_path task_id : string) (db : ChromaDB) :
  exists result db',
    Ingest.process_document file_path task_id db = (Ret result, db') /\
    terminal result = true.
Proof.
  run_io.
  destruct (storage_fault ("doc_" +:+ task_id)); [ended|].
  destruct (db !! ("doc_" +:+ task_id));
    (destruct (storage_context_fault ("doc_" +:+ task_id)); [ended|];
     destruct (load_data file_path) as [documents|]; [|ended];
     destruct documents as [|d docs]; [ended|];
     destruct (get_nodes_from_documents _); [|ended];
     destruct (embed_nodes _); [|ended];
     destruct (generate_summary_returns
                 (String.concat " " (map doc_text (d :: docs)))) as [s ->];
     ended).
Qed.

(** C2, as the code has it.  When the reader extracts no document from the
    file (and the storage engine refuses neither the collection nor its
    wrapping into a storage context),
    [process_document] returns the failed record with the error "No content
    could be extracted from the document"; the collection [doc_<task id>]
    was obtained or created before the file was read, so it exists
    afterwards - empty when it was created by this call - and no other
    collection is touched. *)
Theorem process_document_empty_document
  (file_path task_id : string) (db : ChromaDB) :
  storage_fault ("doc_" +:+ task_id) = None ->
  storage_context_fault ("doc_" +:+ task_id) = None ->
  load_data file_path = Ret [] ->
  fst (Ingest.process_document file_path task_id db) =
    Ret (Failed "No content could be extracted from the document") /\
  snd (Ingest.process_document file_path task_id db) !! ("doc_" +:+ task_id) =
    Some (default [] (db !! ("doc_" +:+ task_id))) /\
  forall name, name <> "doc_" +:+ task_id ->
    snd (Ingest.process_document file_path task_id db) !! name = db !! name.
Proof.
  intros Hs Hc Hl. run_io. rewrite Hs.
  destruct (db !! ("doc_" +:+ task_id)) as [chunks|] eqn:Hdb;
    rewrite Hc, Hl; cbn [fst snd].
  - rewrite Hdb. auto.
  - rewrite lookup_insert_eq. repeat split; [].
    intros name Hne. rewrite lookup_insert_ne; auto.
Qed.

(** C3, as the code has it.  [process_and_update_status] writes the entry
    of the task unconditionally: whatever was stored for the id - also a
    terminal record - is replaced by the record [process_document] returned
    in this run.  That record is terminal, so the status never becomes
    [processing] again; the entries of the other ids are unchanged. *)
Theorem process_and_update_status_replaces
  (task_id file_path : string) (s : Main.Server) :
  exists result,
    fst (Ingest.process_document file_path task_id (Main.chroma s))
      = Ret result /\
    terminal result = true /\
    status result <> "processing" /\
    Main.PROCESSING_STATUS (Main.process_and_update_status task_id file_path s)
      !! task_id = Some result /\
    forall other, other <> task_id ->
      Main.PROCESSING_STATUS
        (Main.process_and_update_status task_id file_path s) !! other
      = Main.PROCESSING_STATUS s !! other.
Proof.
  destruct (process_document_terminal file_path task_id (Main.chroma s))
    as (result & db' & Hp & Hterm).
  exists result. unfold Main.process_and_update_status. rewrite Hp.
  cbn [fst Main.PROCESSING_STATUS].
  repeat split; try assumption.
  - destruct result; [discriminate Hterm | discriminate | discriminate].
  - apply lookup_insert_eq.
  - intros other Hne. apply lookup_insert_ne. congruence.
Qed.

(** C10.  When extraction, node parsing and indexing succeed and the
    summarisation call raises, [process_document] still returns the
    completed record, whose summary is the fixed fallback text, and that
    record is what the registry holds for the task afterwards. *)
Theorem summary_failure_still_completes
  (file_path task_id : string) (s : Main.Server)
  (documents : list Document) (nodes chunks : list Node) (e : string) :
  storage_fault ("doc_" +:+ task_id) = None ->
  storage_context_fault ("doc_" +:+ task_id) = None ->
  load_data file_path = Ret documents ->
  documents <> [] ->
  get_nodes_from_documents documents = Ret nodes ->
  embed_nodes nodes = Ret chunks ->
  chat_completion Ingest.system_prompt
    (Ingest.user_prompt (String.concat " " (map doc_text documents)))
    = Raise e ->
  fst (Ingest.process_document file_path task_id (Main.chroma s)) =
    Ret (Completed
           "Summary generation failed. The document has been processed successfully but no summary is available."
           (Ingest.basename file_path) task_id) /\
  Main.PROCESSING_STATUS (Main.process_and_update_status task_id file_path s)
    !! task_id =
    Some (Completed
            "Summary generation failed. The document has been processed successfully but no summary is available."
            (Ingest.basename file_path) task_id) /\
  status (Completed Ingest.summary_fallback (Ingest.basename file_path) task_id)
    = "completed".
Proof.
  intros Hs Hc Hl Hne Hn Hemb Hsum.
  assert (Hp : fst (Ingest.process_document file_path task_id (Main.chroma s))
               = Ret (Completed Ingest.summary_fallback
                        (Ingest.basename file_path) task_id)).
  { run_io. rewrite Hs.
    destruct (Main.chroma s !! ("doc_" +:+ task_id));
      rewrite Hc, Hl; destruct documents as [|d docs]; try congruence;
      rewrite Hn, Hemb, (generate_summary_fallback _ e Hsum); reflexivity. }
  split; [exact Hp|]. split; [|reflexivity].
  unfold Main.process_and_update_status.
  destruct (Ingest.process_document file_path task_id (Main.chroma s))
    as [r db'].
  cbn [fst] in Hp. subst r. cbn [Main.PROCESSING_STATUS].
  apply lookup_insert_eq.
Qed.

End IngestionPipeline.

(** *** The code run on explicit files and registries *)

(** C2, as stated, fails: nothing is extracted from the file, the failure is
    reported, and the collection [doc_t1], absent before the call, exists
    after it. *)
Lemma empty_document_leaves_a_collection :
  @load_data Scenario.empty_file "uploads/t1_empty.txt" = Ret [] /\
  (∅ : ChromaDB) !! "doc_t1" = None /\
  fst (@Ingest.process_document Scenario.empty_file
         "uploads/t1_empty.txt" "t1" ∅) =
    Ret (Failed "No content could be extracted from the document") /\
  snd (@Ingest.process_document Scenario.empty_file
         "uploads/t1_empty.txt" "t1" ∅) !! "doc_t1" = Some [].
Proof. repeat split. Qed.

(** The theorem for C2 on a file without content and an empty store. *)
Lemma process_document_empty_document_witness :
  fst (@Ingest.process_document Scenario.empty_file
         "uploads/t1_empty.txt" "t1" ∅) =
    Ret (Failed "No content could be extracted from the document") /\
  snd (@Ingest.process_document Scenario.empty_file
         "uploads/t1_empty.txt" "t1" ∅) !! ("doc_" +:+ "t1") =
    Some (default [] ((∅ : ChromaDB) !! ("doc_" +:+ "t1"))) /\
  forall name, name <> "doc_" +:+ "t1" ->
    snd (@Ingest.process_document Scenario.empty_file
           "uploads/t1_empty.txt" "t1" ∅) !! name = (∅ : ChromaDB) !! name.
Proof.
  apply (@process_document_empty_document Scenario.empty_file
           "uploads/t1_empty.txt" "t1" ∅); reflexivity.
Defined.

(** C3, as stated, fails: task [t1] is completed, a further run for the
    same id finds nothing to extract, and the completed record with its
    summary is replaced by a failed one. *)
Lemma terminal_entry_is_overwritten :
  Main.PROCESSING_STATUS Scenario.finished !! "t1" =
    Some (Completed "A summary." "a.txt" "t1") /\
  terminal (Completed "A summary." "a.txt" "t1") = true /\
  Main.PROCESSING_STATUS
    (@Main.process_and_update_status Scenario.empty_file
       "t1" "uploads/t1_a.txt" Scenario.finished) !! "t1" =
    Some (Failed "No content could be extracted from the document") /\
  Main.PROCESSING_STATUS
    (@Main.process_and_update_status Scenario.empty_file
       "t1" "uploads/t1_a.txt" Scenario.finished) !! "t1" <>
  Main.PROCESSING_STATUS Scenario.finished !! "t1".
Proof. repeat split. vm_compute. discriminate. Qed.

(** The theorem for C10 on a one-sentence file and a failing summariser. *)
Lemma summary_failure_still_completes_witness :
  fst (@Ingest.process_document Scenario.summariser_down
         "uploads/t2_notes.txt" "t2" (Main.chroma Scenario.finished)) =
    Ret (Completed
           "Summary generation failed. The document has been processed successfully but no summary is available."
           (Ingest.basename "uploads/t2_notes.txt") "t2") /\
  Main.PROCESSING_STATUS
    (@Main.process_and_update_status Scenario.summariser_down
       "t2" "uploads/t2_notes.txt" Scenario.finished) !! "t2" =
    Some (Completed
            "Summary generation failed. The document has been processed successfully but no summary is available."
            (Ingest.basename "uploads/t2_notes.txt") "t2") /\
  status (Completed Ingest.summary_fallback
            (Ingest.basename "uploads/t2_notes.txt") "t2") = "completed".
Proof.
  apply (@summary_failure_still_completes Scenario.summariser_down
           "uploads/t2_notes.txt" "t2" Scenario.finished
           [{| doc_text := "One sentence." |}]
           [{| node_score := None; node_metadata := None;
               node_text := Some "One sentence.";
               node_str := "One sentence." |}]
           [{| node_score := None; node_metadata := None;
               node_text := Some "One sentence.";
               node_str := "One sentence." |}]
           "rate limit exceeded");
    first [reflexivity | discriminate].
Defined.

Example basename_of_upload :
  Ingest.basename "uploads/t2_notes.txt" = "t2_notes.txt".
Proof. reflexivity. Qed.

(** ** Relevance bucketing in the front end *)

(** The literals of the claim as binary64 values. *)
Lemma decimal_values :
  Frontend.decimal 7 10 = S754_finite false 6305039478318694 (-53) /\
  Frontend.decimal 5 10 = S754_finite false 4503599627370496 (-53) /\
  Frontend.decimal 95 100 = S754_finite false 8556839292003942 (-53) /\
  Frontend.decimal 6 10 = S754_finite false 5404319552844595 (-53) /\
  Frontend.decimal 3 10 = S754_finite false 5404319552844595 (-54).
Proof. repeat split; vm_compute; reflexivity. Qed.

(** [0.7] is not representable: its binary64 value [m * 2^-53] lies within
    half a unit in the last place of [7/10]; [0.5] is exact. *)
Lemma threshold_roundings :
  (Z.abs (10 * 6305039478318694 - 7 * 2 ^ 53) <= 5)%Z /\
  (10 * 4503599627370496 = 5 * 2 ^ 53)%Z.
Proof. split; [vm_compute; discriminate | reflexivity]. Qed.

(** The two [if]s in sequence amount to a three-way choice. *)
Lemma relevance_cases (score : spec_float) :
  Frontend.relevance score =
  if Frontend.lt score (Frontend.decimal 5 10) then Frontend.low
  else if Frontend.lt score (Frontend.decimal 7 10) then Frontend.medium
  else Frontend.high.
Proof.
  unfold Frontend.relevance.
  destruct (Frontend.lt score (Frontend.decimal 5 10)),
           (Frontend.lt score (Frontend.decimal 7 10)); reflexivity.
Qed.

(** C4, as stated, fails at the boundaries: with strict comparisons a score
    equal to the threshold is not below it, so [0.7] is shown as high, not
    medium, and [0.5] as medium, not low. *)
Lemma boundary_scores_take_the_upper_bucket :
  Frontend.relevance (Frontend.decimal 7 10) = Frontend.high /\
  Frontend.relevance (Frontend.decimal 7 10) <> Frontend.medium /\
  Frontend.relevance (Frontend.decimal 5 10) = Frontend.medium /\
  Frontend.relevance (Frontend.decimal 5 10) <> Frontend.low.
Proof. repeat split; vm_compute; discriminate. Qed.

(** C4, as the code has it.  Every score is shown as high, medium or low:
    low exactly when it is below [0.5], medium exactly when it is below
    [0.7] and not below [0.5], high exactly when it is below neither.  So
    [0.95] is high, [0.6] medium, [0.3] low, and the boundary values [0.7]
    and [0.5] are high and medium. *)
Theorem relevance_buckets (score : spec_float) :
  (Frontend.relevance score = Frontend.high \/
   Frontend.relevance score = Frontend.medium \/
   Frontend.relevance score = Frontend.low) /\
  (Frontend.relevance score = Frontend.low <->
   Frontend.lt score (Frontend.decimal 5 10) = true) /\
  (Frontend.relevance score = Frontend.medium <->
   Frontend.lt score (Frontend.decimal 7 10) = true /\
   Frontend.lt score (Frontend.decimal 5 10) = false) /\
  (Frontend.relevance score = Frontend.high <->
   Frontend.lt score (Frontend.decimal 7 10) = false /\
   Frontend.lt score (Frontend.decimal 5 10) = false) /\
  Frontend.relevance (Frontend.decimal 95 100) = Frontend.high /\
  Frontend.relevance (Frontend.decimal 6 10) = Frontend.medium /\
  Frontend.relevance (Frontend.decimal 3 10) = Frontend.low /\
  Frontend.relevance (Frontend.decimal 7 10) = Frontend.high /\
  Frontend.relevance (Frontend.decimal 5 10) = Frontend.medium.
Proof.
  rewrite relevance_cases.
  assert (Hclosed :
            Frontend.relevance (Frontend.decimal 95 100) = Frontend.high /\
            Frontend.relevance (Frontend.decimal 6 10) = Frontend.medium /\
            Frontend.relevance (Frontend.decimal 3 10) = Frontend.low /\
            Frontend.relevance (Frontend.decimal 7 10) = Frontend.high /\
            Frontend.relevance (Frontend.decimal 5 10) = Frontend.medium)
    by (repeat split; vm_compute; reflexivity).
  destruct (Frontend.lt score (Frontend.decimal 5 10)),
           (Frontend.lt score (Frontend.decimal 7 10));
    (split; [auto|]); repeat (split; [split; intros Hx|]);
    try exact Hclosed; try reflexivity; try discriminate Hx;
    try (destruct Hx; discriminate); split; reflexivity.
Qed.

(** ** The aggregate score of a candidate *)

(** When every retrieved node carries a score, [avg_similarity] is the mean
    of the scores of the sources built from the same nodes. *)
Lemma avg_similarity_all_scored (nodes : list Node) :
  nodes <> [] ->
  Forall (fun n => is_Some (node_score n)) nodes ->
  Rag.avg_similarity nodes =
    Ret (Spec.mean_of_sources (map Rag.source_of_node nodes)).
Proof.
  intros Hne Hall. unfold Rag.avg_similarity, Spec.mean_of_sources.
  rewrite !length_map.
  assert (Hscores : omap node_score nodes
                    = map score (map Rag.source_of_node nodes)).
  { clear Hne. induction Hall as [|n l [q Hq] _ IH]; [reflexivity|].
    cbn [omap list_omap map]. rewrite Hq. cbn [Rag.source_of_node score].
    rewrite Hq. cbn [default]. f_equal. apply IH. }
  rewrite Hscores. destruct nodes; [congruence|reflexivity].
Qed.

(** C5 on a retrieval of two nodes of which the second has no [score]
    attribute: the numerator skips the node, the denominator counts it, and
    its source is given the score [0.5].  [avg_similarity] is [0.9 / 2],
    the mean of the two source scores is [(0.9 + 0.5) / 2]. *)
Theorem avg_similarity_skips_unscored_nodes :
  exists avg,
    Rag.avg_similarity Scenario.half_scored = Ret avg /\
    (avg == 9 # 20)%Q /\
    (Spec.mean_of_sources (map Rag.source_of_node Scenario.half_scored)
     == 7 # 10)%Q /\
    ~ (avg ==
       Spec.mean_of_sources (map Rag.source_of_node Scenario.half_scored))%Q.
Proof.
  eexists. split; [reflexivity|].
  split; [reflexivity|]. split; [reflexivity|].
  vm_compute. discriminate.
Qed.

(** * Further properties of the code *)

Ltac run_in H := cbn [mbind mret outcome_bind outcome_ret try_except] in H.

(** ** Retrieval: what the fan-out looks at, and what it adds *)

Section FanOutMore.
Context `{Retrieval}.
Variable question : string.
Variable top_k : nat.

Abbreviation evaluate := (Rag.evaluate question top_k).
Abbreviation fan_out := (Rag.fan_out question top_k).

(** X1.  Collections whose name does not start with "doc_" play no part:
    the loop over an enumeration gives what the loop over its "doc_"
    collections alone gives, exceptions included. *)
Theorem fan_out_ignores_foreign_collections
  (collections : list CollectionInfo) (best_results : list Candidate) :
  fan_out collections best_results =
  fan_out (List.filter (fun i => String.prefix "doc_" (info_name i))
             collections) best_results.
Proof.
  revert best_results. induction collections as [|i l IH];
    intros best_results; [reflexivity|].
  cbn [List.filter].
  destruct (String.prefix "doc_" (info_name i)) eqn:Hp.
  - rewrite !fan_out_cons.
    destruct (evaluate i) as [[c|]|e]; [apply IH | apply IH | reflexivity].
  - rewrite fan_out_cons, (evaluate_skips_foreign question top_k i Hp).
    apply IH.
Qed.

(** X2.  The loop body raises nothing of its own: when the evaluation of a
    collection raises, the collection is a "doc_" one and the message is
    the one raised by the store, the index, the retriever, the prompt
    template or the synthesizer - in this order of attempts.  In
    particular the division by [len(nodes)] never fails. *)
Theorem evaluate_error_comes_from_a_collaborator
  (info : CollectionInfo) (e : string) :
  evaluate info = Raise e ->
  String.prefix "doc_" (info_name info) = true /\
  (get_collection (info_name info) = Raise e \/
   exists chroma_collection,
     get_collection (info_name info) = Ret chroma_collection /\
     (from_vector_store chroma_collection = Raise e \/
      exists index,
        from_vector_store chroma_collection = Ret index /\
        (retrieve index top_k question = Raise e \/
         exists nodes,
           retrieve index top_k question = Ret nodes /\ nodes <> [] /\
           (PromptTemplate = Raise e \/
            exists qa_template,
              PromptTemplate = Ret qa_template /\
              synthesize qa_template question nodes = Raise e)))).
Proof.
  unfold Rag.evaluate.
  destruct (String.prefix "doc_" (info_name info)); cbn [negb];
    [|discriminate].
  intros Hev. split; [reflexivity|].
  destruct (get_collection (info_name info)) as [coll|m] eqn:Hc; run_in Hev;
    [right; exists coll; split; [reflexivity|] | left; congruence].
  destruct (from_vector_store coll) as [idx|m] eqn:Hi; run_in Hev;
    [right; exists idx; split; [reflexivity|] | left; congruence].
  destruct (retrieve idx top_k question) as [[|n nodes]|m] eqn:Hr;
    run_in Hev; [discriminate | | left; congruence].
  right. exists (n :: nodes). split; [reflexivity|]. split; [discriminate|].
  destruct PromptTemplate as [tpl|m] eqn:Ht; run_in Hev;
    [right; exists tpl; split; [reflexivity|] | left; congruence].
  destruct (synthesize tpl question (n :: nodes)) as [resp|m] eqn:Hs;
    run_in Hev; [|congruence].
  discriminate Hev.
Qed.

(** X7.  A response without sources is never an answer taken from a
    document: it is one of the two fixed answers or the error answer. *)
Theorem empty_sources_mean_no_document_answer (r : Response) :
  Rag.query_document question top_k = Ret r ->
  r_sources r = [] ->
  r = Rag.no_documents \/ r = Rag.no_relevant \/
  exists e, r = Rag.retrieval_error e.
Proof.
  intros Hq Hempty.
  destruct (query_document_cases question top_k)
    as [(e & _ & Hq') | [(_ & Hq') | [(cols & _ & _ & Hq')
       | (cols & results & best & Hl & Hf & Hbest & Hq')]]];
    rewrite Hq' in Hq; injection Hq as <-; eauto.
  exfalso. cbn [r_sources] in Hempty.
  destruct (sort_desc_head_first_max results best Hbest)
    as (pre & post & Heq & _ & _).
  destruct (fan_out_appends question top_k _ _ _ Hf)
    as (new & Hnew & Hall & _).
  cbn [app] in Hnew. subst new.
  rewrite Forall_forall in Hall.
  destruct (Hall best) as (info & _ & Hev); [rewrite Heq; set_solver|].
  destruct (evaluate_candidate question top_k info best Hev)
    as (coll & idx & nodes & _ & _ & _ & Hne & _ & Hs & _).
  rewrite Hs in Hempty. destruct nodes; [congruence|discriminate].
Qed.

(** X6.  [/ask] is [query_document] with [top_k = 4]: as [query_document]
    never raises, the handler of [ask_question] is never taken and no
    answer of the form "Error: ..." is ever produced by it. *)
Theorem ask_question_is_query_document :
  Main.ask_question question = Rag.query_document question 4.
Proof.
  unfold Main.ask_question, Rag.query_document.
  destruct (Rag.query_document_body question 4); reflexivity.
Qed.

End FanOutMore.

(** ** Retrieval: scores and ranking *)

Lemma sum_from (xs : list Q) (a : Q) :
  (fold_left Qplus xs a == a + Rag.sum xs)%Q.
Proof.
  unfold Rag.sum. revert a. induction xs as [|x xs IH]; intros a; cbn.
  - ring.
  - rewrite (IH (a + x)%Q), (IH (0 + x)%Q). ring.
Qed.

Lemma sum_cons (x : Q) (xs : list Q) : (Rag.sum (x :: xs) == x + Rag.sum xs)%Q.
Proof. unfold Rag.sum at 1. cbn. rewrite sum_from. ring. Qed.

Lemma sum_unit_interval (xs : list Q) :
  Forall (fun x => (0 <= x <= 1)%Q) xs ->
  (0 <= Rag.sum xs <= inject_Z (Z.of_nat (length xs)))%Q.
Proof.
  induction 1 as [|x xs [Hx0 Hx1] _ [IH0 IH1]].
  - split; [apply Qle_refl|]. cbn. apply Qle_refl.
  - rewrite sum_cons. cbn [length]. rewrite Nat2Z.inj_succ.
    unfold Z.succ. rewrite inject_Z_plus. split.
    + replace 0%Q with (0 + 0)%Q by reflexivity. apply Qplus_le_compat; auto.
    + rewrite Qplus_comm. apply Qplus_le_compat; auto.
Qed.

(** X3.  With the scores that are present lying in [[0, 1]], the aggregate
    score of a non-empty retrieval is computed without error and lies in
    [[0, 1]] too, whether or not some nodes lack a score. *)
Theorem avg_similarity_in_unit_interval (nodes : list Node) :
  nodes <> [] ->
  Forall (fun n => forall q, node_score n = Some q -> (0 <= q <= 1)%Q) nodes ->
  exists avg,
    Rag.avg_similarity nodes = Ret avg /\ (0 <= avg <= 1)%Q.
Proof.
  intros Hne Hall. unfold Rag.avg_similarity, Rag.div_len.
  destruct (length nodes) as [|n] eqn:Hlen.
  { destruct nodes; [congruence|discriminate]. }
  eexists. split; [reflexivity|].
  assert (Hscores : Forall (fun x => (0 <= x <= 1)%Q) (omap node_score nodes)).
  { clear Hne Hlen. induction Hall as [|m l Hm _ IH]; [constructor|].
    cbn [omap list_omap]. destruct (node_score m) as [q|]; [|exact IH].
    constructor; [apply Hm; reflexivity | exact IH]. }
  destruct (sum_unit_interval _ Hscores) as [H0 H1].
  assert (Hk : (inject_Z (Z.of_nat (length (omap node_score nodes)))
                <= inject_Z (Z.of_nat (S n)))%Q).
  { rewrite <- Zle_Qle. apply Nat2Z.inj_le. rewrite <- Hlen.
    clear. induction nodes as [|m l IH]; [reflexivity|].
    cbn [omap list_omap length]. destruct (node_score m); cbn [length]; lia. }
  assert (Hpos : (0 < inject_Z (Z.of_nat (S n)))%Q).
  { replace 0%Q with (inject_Z 0) by reflexivity. rewrite <- Zlt_Qlt. lia. }
  split.
  - apply Qle_shift_div_l; [exact Hpos|]. rewrite Qmult_0_l. exact H0.
  - apply Qle_shift_div_r; [exact Hpos|]. rewrite Qmult_1_l.
    eapply Qle_trans; eassumption.
Qed.

Lemma insert_desc_sorted (c : Candidate) (l : list Candidate) :
  StronglySorted (fun a b => (avg_score b <= avg_score a)%Q) l ->
  StronglySorted (fun a b => (avg_score b <= avg_score a)%Q)
    (Rag.insert_desc c l).
Proof.
  induction 1 as [|d l Hsorted IH Hd]; cbn [Rag.insert_desc].
  - repeat constructor.
  - destruct (Rag.Qltb (avg_score c) (avg_score d)) eqn:Hlt.
    + apply Qltb_lt in Hlt. constructor; [exact IH|].
      rewrite insert_desc_perm. constructor; [|exact Hd].
      apply Qlt_le_weak, Hlt.
    + apply Qltb_ge in Hlt. constructor; [constructor; assumption|].
      constructor; [exact Hlt|].
      eapply Forall_impl; [exact Hd|]. cbn beta. intros x Hx.
      eapply Qle_trans; eassumption.
Qed.

Lemma insert_desc_same_score (v : Q) (c : Candidate) (l : list Candidate) :
  List.filter (fun x => Qeq_bool (avg_score x) v) (Rag.insert_desc c l) =
  List.filter (fun x => Qeq_bool (avg_score x) v) (c :: l).
Proof.
  induction l as [|d l IH]; [reflexivity|]. cbn [Rag.insert_desc].
  destruct (Rag.Qltb (avg_score c) (avg_score d)) eqn:Hlt; [|reflexivity].
  apply Qltb_lt in Hlt. cbn [List.filter] in *. rewrite IH.
  destruct (Qeq_bool (avg_score c) v) eqn:Hc,
           (Qeq_bool (avg_score d) v) eqn:Hd; try reflexivity.
  exfalso. apply Qeq_bool_iff in Hc, Hd. rewrite Hc, Hd in Hlt.
  exact (Qlt_irrefl _ Hlt).
Qed.

(** X5.  The sort of [best_results] keeps the candidates, puts them in
    non-increasing order of [avg_score], and is stable: the candidates of
    any one score stay in the order in which they were collected. *)
Theorem sort_desc_sorted_and_stable (best_results : list Candidate) :
  Rag.sort_desc best_results ≡ₚ best_results /\
  StronglySorted (fun a b => (avg_score b <= avg_score a)%Q)
    (Rag.sort_desc best_results) /\
  forall v,
    List.filter (fun x => Qeq_bool (avg_score x) v)
      (Rag.sort_desc best_results) =
    List.filter (fun x => Qeq_bool (avg_score x) v) best_results.
Proof.
  split; [apply sort_desc_perm|]. split.
  - induction best_results as [|c l IH]; [constructor|].
    rewrite sort_desc_cons. apply insert_desc_sorted, IH.
  - intros v. induction best_results as [|c l IH]; [reflexivity|].
    rewrite sort_desc_cons, insert_desc_same_score.
    cbn [List.filter]. rewrite IH. reflexivity.
Qed.

(** X4.  When the retriever only returns scored nodes, the aggregate
    score of every candidate the loop body builds is the arithmetic mean of
    the scores of that candidate's own sources. *)
Theorem candidate_score_is_mean_of_its_sources `{Retrieval}
  (question : string) (top_k : nat) (info : CollectionInfo) (c : Candidate) :
  Rag.evaluate question top_k info = Ret (Some c) ->
  (forall index nodes,
      retrieve index top_k question = Ret nodes ->
      Forall (fun n => is_Some (node_score n)) nodes) ->
  avg_score c = Spec.mean_of_sources (sources c).
Proof.
  intros Hev Hscored.
  destruct (evaluate_candidate question top_k info c Hev)
    as (coll & idx & nodes & _ & _ & Hr & Hne & Havg & Hs & _).
  rewrite (avg_similarity_all_scored nodes Hne (Hscored idx nodes Hr)) in Havg.
  injection Havg as Havg. rewrite Hs. symmetry. exact Havg.
Qed.

Lemma candidate_score_is_mean_of_its_sources_witness :
  match Scenario.tied_results with
  | c :: _ => avg_score c = Spec.mean_of_sources (sources c)
  | [] => False
  end.
Proof.
  cbn [Scenario.tied_results].
  apply (@candidate_score_is_mean_of_its_sources Scenario.tied "q" 4
           Scenario.doc_a).
  - reflexivity.
  - intros index nodes. cbn [retrieve Scenario.tied Scenario.store].
    destruct (String.eqb index "doc_a"); intros [= <-];
      repeat constructor; eexists; reflexivity.
Defined.

Lemma avg_similarity_in_unit_interval_witness :
  exists avg,
    Rag.avg_similarity Scenario.half_scored = Ret avg /\ (0 <= avg <= 1)%Q.
Proof.
  apply (avg_similarity_in_unit_interval Scenario.half_scored).
  - discriminate.
  - repeat constructor; cbn in *; try discriminate;
      match goal with Hq : Some _ = Some _ |- _ =>
        injection Hq as <- end; vm_compute; discriminate.
Defined.

Lemma evaluate_error_comes_from_a_collaborator_witness :
  let R := Scenario.first_store_down in
  String.prefix "doc_" (info_name Scenario.doc_a) = true /\
  (@get_collection R (info_name Scenario.doc_a) = Raise "connection reset" \/
   exists chroma_collection,
     @get_collection R (info_name Scenario.doc_a) = Ret chroma_collection /\
     (@from_vector_store R chroma_collection = Raise "connection reset" \/
      exists index,
        @from_vector_store R chroma_collection = Ret index /\
        (@retrieve R index 4 "q" = Raise "connection reset" \/
         exists nodes,
           @retrieve R index 4 "q" = Ret nodes /\ nodes <> [] /\
           (@PromptTemplate R = Raise "connection reset" \/
            exists qa_template,
              @PromptTemplate R = Ret qa_template /\
              @synthesize R qa_template "q" nodes
                = Raise "connection reset")))).
Proof.
  apply (@evaluate_error_comes_from_a_collaborator
           Scenario.first_store_down "q" 4 Scenario.doc_a "connection reset").
  reflexivity.
Defined.

Lemma empty_sources_mean_no_document_answer_witness :
  Rag.no_relevant = Rag.no_documents \/ Rag.no_relevant = Rag.no_relevant \/
  exists e, Rag.no_relevant = Rag.retrieval_error e.
Proof.
  apply (@empty_sources_mean_no_document_answer
           Scenario.nothing_retrieved "q" 4 Rag.no_relevant); reflexivity.
Defined.

(** ** Ingestion: what [process_document] does to the store *)

Section IngestionMore.
Context `{Ingestion}.

(** The store once [get_or_create_collection] has run without error. *)
Abbreviation opened name db :=
  (match db !! name with Some _ => db | None => <[name := []]> db end).

(** Every way through [process_document]. *)
Lemma process_document_paths (file_path task_id : string) (db : ChromaDB) :
  let name := "doc_" +:+ task_id in
  (exists e, storage_fault name = Some e /\
     Ingest.process_document file_path task_id db = (Ret (Failed e), db)) \/
  (storage_fault name = None /\
   ((exists e,
       (storage_context_fault name = Some e \/
        storage_context_fault name = None /\
        (load_data file_path = Raise e \/
         load_data file_path = Ret [] /\ e = Ingest.no_content \/
         exists documents,
           load_data file_path = Ret documents /\ documents <> [] /\
           (get_nodes_from_documents documents = Raise e \/
            exists nodes,
              get_nodes_from_documents documents = Ret nodes /\
              embed_nodes nodes = Raise e))) /\
       Ingest.process_document file_path task_id db =
         (Ret (Failed e), opened name db)) \/
    (exists documents nodes chunks summary,
       storage_context_fault name = None /\
       load_data file_path = Ret documents /\ documents <> [] /\
       get_nodes_from_documents documents = Ret nodes /\
       embed_nodes nodes = Ret chunks /\
       Ingest.generate_summary (String.concat " " (map doc_text documents))
         = Ret summary /\
       Ingest.process_document file_path task_id db =
         (Ret (Completed summary (Ingest.basename file_path) task_id),
          <[name := default [] (db !! name) ++ chunks]> db)))).
Proof.
  cbn zeta. run_io.
  destruct (storage_fault ("doc_" +:+ task_id)) as [e|] eqn:Hs;
    [left; eauto|right; split; [reflexivity|]].
  destruct (db !! ("doc_" +:+ task_id)) as [old|] eqn:Hdb; cbn beta iota;
    (destruct (storage_context_fault ("doc_" +:+ task_id)) as [e|] eqn:Hc;
     cbn beta iota; [left; exists e; split; [left|]; reflexivity|];
     destruct (load_data file_path) as [[|d docs]|e] eqn:Hl; cbn beta iota;
     [ left; eexists; split; [right; split; [reflexivity|]; right; left;
         split; reflexivity | reflexivity]
     | | left; exists e; split; [right; split; [reflexivity|]; left;
         reflexivity | reflexivity] ];
     destruct (get_nodes_from_documents (d :: docs)) as [nodes|e] eqn:Hn;
     cbn beta iota;
     [ | left; exists e; split; [right; split; [reflexivity|]; right; right;
           exists (d :: docs); split; [reflexivity|]; split; [discriminate|];
           left; exact Hn | reflexivity] ];
     destruct (embed_nodes nodes) as [chunks|e] eqn:He; cbn beta iota;
     [ | left; exists e; split; [right; split; [reflexivity|]; right; right;
           exists (d :: docs); split; [reflexivity|]; split; [discriminate|];
           right; exists nodes; split; [exact Hn | exact He] | reflexivity] ];
     destruct (generate_summary_returns
                 (String.concat " " (map doc_text (d :: docs))))
       as [summary Hsum];
     right; exists (d :: docs), nodes, chunks, summary;
     rewrite Hsum; cbn beta iota;
     repeat (split; [first [reflexivity | discriminate | assumption]|])).
  - rewrite Hdb. reflexivity.
  - rewrite lookup_insert_eq, insert_insert_eq. reflexivity.
Qed.

End IngestionMore.

Lemma doc_name_inj (t1 t2 : string) : "doc_" +:+ t1 = "doc_" +:+ t2 -> t1 = t2.
Proof. intros Heq. simpl in Heq. injection Heq as Heq. exact Heq. Qed.

Section IngestionStore.
Context `{Ingestion}.

(** X8.  [get_or_create_collection] is idempotent: a second call changes
    nothing and returns the same handle; a collection that exists is
    returned with its chunks untouched, and after a successful call the
    collection named "doc_<task id>" exists. *)
Theorem get_or_create_collection_idempotent (task_id : string) (db : ChromaDB) :
  let name := "doc_" +:+ task_id in
  let after := snd (Ingest.get_or_create_collection task_id db) in
  Ingest.get_or_create_collection task_id after =
    (fst (Ingest.get_or_create_collection task_id db), after) /\
  (is_Some (db !! name) -> after = db) /\
  (forall handle,
      fst (Ingest.get_or_create_collection task_id db) = Ret handle ->
      handle = name /\ after !! name = Some (default [] (db !! name))).
Proof.
  cbn zeta. unfold Ingest.get_or_create_collection,
    Ingest.chroma_get_or_create, io_try, lift.
  destruct (storage_fault ("doc_" +:+ task_id)) as [e|] eqn:Hs; cbn [fst snd].
  - repeat split; [discriminate | discriminate].
  - destruct (db !! ("doc_" +:+ task_id)) as [old|] eqn:Hdb; cbn [fst snd].
    + rewrite Hdb. repeat split; congruence.
    + rewrite lookup_insert_eq. split; [reflexivity|]. split.
      * intros [x Hx]. discriminate.
      * intros handle [= <-]. auto.
Qed.

(** X9.  [process_document] touches one collection only: whatever happens,
    every collection other than "doc_<task id>" - in particular the
    collection of every other task - holds afterwards what it held
    before. *)
Theorem process_document_touches_one_collection
  (file_path task_id : string) (db : ChromaDB) :
  (forall name, name <> "doc_" +:+ task_id ->
     snd (Ingest.process_document file_path task_id db) !! name = db !! name) /\
  (forall other, other <> task_id ->
     snd (Ingest.process_document file_path task_id db) !! ("doc_" +:+ other)
     = db !! ("doc_" +:+ other)).
Proof.
  assert (Hframe : forall name, name <> "doc_" +:+ task_id ->
            snd (Ingest.process_document file_path task_id db) !! name
            = db !! name).
  { intros name Hne.
    destruct (process_document_paths file_path task_id db)
      as [(e & _ & ->) | (_ & [(e & _ & ->)
         | (docs & nodes & chunks & s & _ & _ & _ & _ & _ & _ & ->)])];
      cbn [snd]; [reflexivity | | rewrite lookup_insert_ne; congruence].
    destruct (db !! ("doc_" +:+ task_id)); [reflexivity|].
    rewrite lookup_insert_ne; congruence. }
  split; [exact Hframe|].
  intros other Hne. apply Hframe. intros Heq. apply Hne.
  exact (doc_name_inj _ _ Heq).
Qed.

(** X10.  A completed record is returned only when every step succeeded
    on a non-empty extraction; the collection then holds what it held
    before followed by the embedded chunks, the record names the base name
    of the processed path and the task id, and its summary is what
    [generate_summary] returned for the joined document texts. *)
Theorem process_document_completed
  (file_path task_id summary file index_id : string) (db : ChromaDB) :
  fst (Ingest.process_document file_path task_id db) =
    Ret (Completed summary file index_id) ->
  exists documents nodes chunks,
    load_data file_path = Ret documents /\ documents <> [] /\
    get_nodes_from_documents documents = Ret nodes /\
    embed_nodes nodes = Ret chunks /\
    Ingest.generate_summary (String.concat " " (map doc_text documents))
      = Ret summary /\
    file = Ingest.basename file_path /\
    index_id = task_id /\
    snd (Ingest.process_document file_path task_id db)
      !! ("doc_" +:+ task_id)
    = Some (default [] (db !! ("doc_" +:+ task_id)) ++ chunks).
Proof.
  destruct (process_document_paths file_path task_id db)
    as [(e & _ & ->) | (_ & [(e & _ & ->)
       | (docs & nodes & chunks & s & _ & Hl & Hne & Hn & He & Hsum & ->)])];
    cbn [fst snd]; try discriminate.
  intros [= <- <- <-]. exists docs, nodes, chunks.
  rewrite lookup_insert_eq. auto 10.
Qed.


(** X12.  [generate_summary] never raises: it returns the stripped text of
    the completion, or the fixed fallback text when the completion call
    raised. *)
Theorem generate_summary_result (doc_content : string) :
  exists summary,
    Ingest.generate_summary doc_content = Ret summary /\
    ((exists content,
        chat_completion Ingest.system_prompt (Ingest.user_prompt doc_content)
          = Ret content /\ summary = strip content) \/
     (exists e,
        chat_completion Ingest.system_prompt (Ingest.user_prompt doc_content)
          = Raise e) /\
     summary =
       "Summary generation failed. The document has been processed successfully but no summary is available.").
Proof.
  unfold Ingest.generate_summary.
  destruct (chat_completion _ _) as [content|e]; run; eauto 10.
Qed.


End IngestionStore.

(** ** Paths: [os.path.join] and [os.path.basename] *)

Lemma append_cons (x : Ascii.ascii) (a b : string) :
  String x a +:+ b = String x (a +:+ b).
Proof. reflexivity. Qed.

Lemma append_assoc (a b c : string) : (a +:+ b) +:+ c = a +:+ (b +:+ c).
Proof.
  induction a as [|x a IH]; [reflexivity|].
  rewrite !append_cons, IH. reflexivity.
Qed.

Lemma append_empty_r (a : string) : a +:+ "" = a.
Proof.
  induction a as [|x a IH]; [reflexivity|].
  rewrite append_cons, IH. reflexivity.
Qed.

Lemma contains_slash_append (a b : string) :
  Main.contains_slash (a +:+ b) = Main.contains_slash a || Main.contains_slash b.
Proof.
  induction a as [|x a IH]; [reflexivity|].
  rewrite append_cons. cbn [Main.contains_slash].
  rewrite IH. apply orb_assoc.
Qed.

Lemma basename_from_no_slash (cur p : string) :
  Main.contains_slash p = false -> Ingest.basename_from cur p = cur +:+ p.
Proof.
  revert cur. induction p as [|c p IH]; intros cur Hp;
    cbn [Ingest.basename_from].
  - symmetry. apply append_empty_r.
  - cbn [Main.contains_slash] in Hp. apply orb_false_iff in Hp as [Hc Hp].
    rewrite Hc, (IH _ Hp), append_assoc. reflexivity.
Qed.

Lemma basename_from_after_slash (cur a q : string) :
  Ingest.basename_from cur (a +:+ String (Ascii.ascii_of_nat 47) q) =
  Ingest.basename_from "" q.
Proof.
  revert cur. induction a as [|c a IH]; intros cur.
  - change ("" +:+ String (Ascii.ascii_of_nat 47) q)
      with (String (Ascii.ascii_of_nat 47) q).
    cbn [Ingest.basename_from]. rewrite Ascii.eqb_refl. reflexivity.
  - rewrite append_cons. cbn [Ingest.basename_from].
    destruct (Ascii.eqb c _); apply IH.
Qed.

Lemma ends_with_slash_split (a : string) :
  Main.ends_with_slash a = true ->
  exists a', a = a' +:+ String (Ascii.ascii_of_nat 47) "".
Proof.
  induction a as [|c a IH]; [discriminate|].
  destruct a as [|d a].
  - cbn [Main.ends_with_slash]. intros Hc. apply Ascii.eqb_eq in Hc.
    subst c. exists "". reflexivity.
  - intros Hrest. destruct (IH Hrest) as [a' Ha'].
    exists (String c a'). rewrite append_cons, <- Ha'. reflexivity.
Qed.

Lemma basename_of_joined (dir name : string) :
  Main.contains_slash name = false ->
  Ingest.basename (Main.path_join dir name) = name.
Proof.
  intros Hname. unfold Ingest.basename, Main.path_join.
  assert (Hbase : Ingest.basename_from "" name = name)
    by (rewrite basename_from_no_slash; auto).
  destruct (String.prefix "/" name); [exact Hbase|].
  destruct (String.eqb dir "") eqn:Hdir; cbn [orb].
  - apply String.eqb_eq in Hdir. subst dir. exact Hbase.
  - destruct (Main.ends_with_slash dir) eqn:Hend.
    + destruct (ends_with_slash_split dir Hend) as [a' ->].
      rewrite append_assoc.
      change (String (Ascii.ascii_of_nat 47) "" +:+ name)
        with (String (Ascii.ascii_of_nat 47) name).
      rewrite basename_from_after_slash. exact Hbase.
    + change (dir +:+ "/" +:+ name)
        with (dir +:+ String (Ascii.ascii_of_nat 47) name).
      rewrite basename_from_after_slash. exact Hbase.
Qed.

(** X14.  On a file name that holds no "/", [os.path.basename] is the
    identity, and joining any directory in front of it and taking the base
    name gives the file name back. *)
Theorem basename_path_join (dir name : string) :
  Main.contains_slash name = false ->
  Ingest.basename name = name /\
  Ingest.basename (Main.path_join dir name) = name.
Proof.
  intros Hname. split.
  - unfold Ingest.basename. rewrite basename_from_no_slash by exact Hname.
    reflexivity.
  - apply basename_of_joined. exact Hname.
Qed.

Lemma basename_path_join_witness :
  Ingest.basename "t2_notes.txt" = "t2_notes.txt" /\
  Ingest.basename (Main.path_join "uploads" "t2_notes.txt") = "t2_notes.txt".
Proof. apply (basename_path_join "uploads" "t2_notes.txt"). reflexivity. Defined.

(** ** The endpoints of main.py together *)

Section Lifecycle.
Context `{Ingestion}.

Lemma stored_name (task_id filename : string) :
  Main.contains_slash task_id = false ->
  Main.contains_slash filename = false ->
  Ingest.basename
    (Main.path_join Main.UPLOAD_FOLDER (task_id +:+ "_" +:+ filename))
  = task_id +:+ "_" +:+ filename.
Proof.
  intros Ht Hf. apply basename_of_joined.
  rewrite !contains_slash_append, Ht, Hf. reflexivity.
Qed.

(** X15.  The life of a task: a successful upload answers with the task id
    and registers the task as processing under the uploaded file name;
    once the scheduled background call has run, the task is in a terminal
    state; and when that state is completed, the record names the stored
    file "<task id>_<file name>", not the uploaded name, and the task id as
    index id. *)
Theorem upload_then_process (task_id filename : string) (s : Main.Server) :
  Main.contains_slash task_id = false ->
  Main.contains_slash filename = false ->
  let up := Main.upload_file task_id filename (Ret tt) s in
  up.1.1 = Main.Ok task_id /\
  Main.check_task_status task_id up.2 = Some (Processing filename) /\
  exists result,
    Main.check_task_status task_id (Main.run_background up.1.2 up.2)
      = Some result /\
    terminal result = true /\
    forall summary file index_id,
      result = Completed summary file index_id ->
      file = task_id +:+ "_" +:+ filename /\ index_id = task_id.
Proof.
  intros Ht Hf. cbn zeta. unfold Main.upload_file. cbn [fst snd].
  split; [reflexivity|]. split.
  { unfold Main.check_task_status. cbn [Main.PROCESSING_STATUS].
    apply lookup_insert_eq. }
  unfold Main.run_background, Main.process_and_update_status,
    Main.check_task_status. cbn [Main.chroma Main.PROCESSING_STATUS].
  destruct (process_document_paths
              (Main.path_join Main.UPLOAD_FOLDER (task_id +:+ "_" +:+ filename))
              task_id (Main.chroma s))
    as [(e & _ & ->) | (_ & [(e & _ & ->)
       | (docs & nodes & chunks & sm & _ & _ & _ & _ & _ & _ & ->)])];
    cbn [Main.PROCESSING_STATUS]; rewrite lookup_insert_eq;
    eexists; (split; [reflexivity|]); (split; [reflexivity|]);
    intros summary file index_id Heq; try discriminate Heq.
  injection Heq as _ <- <-. split; [|reflexivity].
  apply stored_name; assumption.
Qed.

(** X16.  From upload to summary: when the upload is saved and every step
    of the ingestion succeeds, [/summary/{task_id}] answers with the
    stripped text of the completion and with the stored file name
    "<task id>_<file name>". *)
Theorem upload_to_summary (task_id filename content : string)
  (s : Main.Server) (documents : list Document) (nodes chunks : list Node) :
  Main.contains_slash task_id = false ->
  Main.contains_slash filename = false ->
  storage_fault ("doc_" +:+ task_id) = None ->
  storage_context_fault ("doc_" +:+ task_id) = None ->
  load_data (Main.path_join Main.UPLOAD_FOLDER (task_id +:+ "_" +:+ filename))
    = Ret documents ->
  documents <> [] ->
  get_nodes_from_documents documents = Ret nodes ->
  embed_nodes nodes = Ret chunks ->
  chat_completion Ingest.system_prompt
    (Ingest.user_prompt (String.concat " " (map doc_text documents)))
    = Ret content ->
  let up := Main.upload_file task_id filename (Ret tt) s in
  Main.get_document_summary task_id (Main.run_background up.1.2 up.2) =
    Main.Ok (Main.Summary (strip content) (task_id +:+ "_" +:+ filename)).
Proof.
  intros Ht Hf Hs Hc Hl Hne Hn He Hsum. cbn zeta.
  unfold Main.upload_file. cbn [fst snd].
  unfold Main.run_background, Main.process_and_update_status,
    Main.get_document_summary. cbn [Main.chroma Main.PROCESSING_STATUS].
  assert (Hsummary :
            Ingest.generate_summary
              (String.concat " " (map doc_text documents))
            = Ret (strip content)).
  { unfold Ingest.generate_summary. rewrite Hsum. reflexivity. }
  destruct (process_document_paths
              (Main.path_join Main.UPLOAD_FOLDER (task_id +:+ "_" +:+ filename))
              task_id (Main.chroma s))
    as [(e & Hs' & _) | (_ & [(e & Hcause & _)
       | (docs & nodes' & chunks' & sm & _ & Hl' & _ & Hn' & _ & Hsm & ->)])].
  - congruence.
  - exfalso.
    destruct Hcause as [Hc' | (_ & [Hl' | [(Hl' & _) | (docs & Hl' & _ &
      [Hn' | (nodes' & Hn' & He')])]])]; try congruence;
      rewrite Hl in Hl'; injection Hl' as <-; congruence.
  - rewrite Hl in Hl'. injection Hl' as <-.
    rewrite Hsummary in Hsm. injection Hsm as <-.
    cbn [Main.PROCESSING_STATUS]. rewrite lookup_insert_eq.
    rewrite stored_name by assumption. reflexivity.
Qed.

(** X17.  After the background call for a task, [/summary/{task_id}]
    never answers 404: it gives the summary and file of the completed
    record, and for every failure the same body "Document processing not
    completed: failed", which does not carry the error text. *)
Theorem summary_after_processing (task_id file_path : string)
  (s : Main.Server) :
  Main.get_document_summary task_id
    (Main.process_and_update_status task_id file_path s) =
  match fst (Ingest.process_document file_path task_id (Main.chroma s)) with
  | Ret (Completed summary file _) => Main.Ok (Main.Summary summary file)
  | _ => Main.Ok (Main.NotCompleted
                    "Document processing not completed: failed")
  end.
Proof.
  destruct (process_document_terminal file_path task_id (Main.chroma s))
    as (result & db' & Hp & Hterm).
  unfold Main.process_and_update_status, Main.get_document_summary.
  rewrite Hp. cbn [fst Main.PROCESSING_STATUS]. rewrite lookup_insert_eq.
  destruct result; [discriminate Hterm | reflexivity | reflexivity].
Qed.

(** X18.  No write of main.py removes a task from the registry: after an
    upload, successful or not, and after the background call, the
    registered ids are those registered before and the id written. *)
Theorem registry_only_grows (task_id filename file_path : string)
  (saved : outcome unit) (s : Main.Server) :
  dom (Main.PROCESSING_STATUS (Main.upload_file task_id filename saved s).2)
    = {[task_id]} ∪ dom (Main.PROCESSING_STATUS s) /\
  dom (Main.PROCESSING_STATUS
         (Main.process_and_update_status task_id file_path s))
    = {[task_id]} ∪ dom (Main.PROCESSING_STATUS s).
Proof.
  split.
  - unfold Main.upload_file. destruct saved; cbn [snd Main.PROCESSING_STATUS];
      apply dom_insert_L.
  - unfold Main.process_and_update_status.
    destruct (Ingest.process_document file_path task_id (Main.chroma s))
      as [[r|e] db']; cbn [Main.PROCESSING_STATUS]; apply dom_insert_L.
Qed.

End Lifecycle.

(** ** frontend.py: waiting for an uploaded file *)

Section PollLoop.
Variable uploaded_name : string.
Variable task : string.
Variable summary_response : Client.SummaryResponse.

Abbreviation round := (Client.round uploaded_name task summary_response).
Abbreviation poll_from := (Client.poll_from uploaded_name task).
Abbreviation poll := (Client.poll uploaded_name task).

Lemma poll_from_decisive (status_response : nat -> Client.StatusResponse)
  (remaining retries i : nat) (outcome : Client.PollOutcome) :
  i < remaining ->
  (forall j, j < i -> round (status_response (retries + j)) = None) ->
  round (status_response (retries + i)) = Some outcome ->
  poll_from status_response summary_response remaining retries = outcome.
Proof.
  revert retries i. induction remaining as [|n IH]; intros retries i Hi Hwait Hdec;
    [lia|].
  cbn [Client.poll_from]. destruct i as [|i].
  - rewrite Nat.add_0_r in Hdec. rewrite Hdec. reflexivity.
  - specialize (Hwait 0 ltac:(lia)) as H0. rewrite Nat.add_0_r in H0.
    rewrite H0. apply (IH (S retries) i); [lia| |].
    + intros j Hj. specialize (Hwait (S j) ltac:(lia)).
      replace (S retries + j) with (retries + S j) by lia. exact Hwait.
    + replace (S retries + i) with (retries + S i) by lia. exact Hdec.
Qed.

Lemma poll_from_timeout (status_response : nat -> Client.StatusResponse)
  (remaining retries : nat) :
  poll_from status_response summary_response remaining retries
    = Client.TimedOut <->
  forall j, j < remaining -> round (status_response (retries + j)) = None.
Proof.
  revert retries. induction remaining as [|n IH]; intros retries;
    cbn [Client.poll_from].
  - split; [intros _ j Hj; lia | reflexivity].
  - destruct (round (status_response retries)) as [outcome|] eqn:Hr.
    + split.
      * intros ->. exfalso. unfold Client.round in Hr.
        destruct (status_response retries) as [m| |m|[st|] f e];
          try discriminate Hr.
        destruct (String.eqb st "completed"); [discriminate Hr|].
        destruct (String.eqb st "failed"); discriminate Hr.
      * intros Hall. specialize (Hall 0 ltac:(lia)).
        rewrite Nat.add_0_r in Hall. congruence.
    + rewrite IH. split.
      * intros Hall [|j] Hj; [rewrite Nat.add_0_r; exact Hr|].
        replace (retries + S j) with (S retries + j) by lia.
        apply Hall. lia.
      * intros Hall j Hj.
        replace (S retries + j) with (retries + S j) by lia.
        apply Hall. lia.
Qed.

Lemma round_waits (response : Client.StatusResponse) :
  round response = None <->
  exists st file error,
    response = Client.StatusData (Some st) file error /\
    st <> "completed" /\ st <> "failed".
Proof.
  unfold Client.round. split.
  - destruct response as [m| |m|[st|] f e]; try discriminate.
    destruct (String.eqb st "completed") eqn:Hc; [discriminate|].
    destruct (String.eqb st "failed") eqn:Hf; [discriminate|].
    intros _. exists st, f, e.
    apply String.eqb_neq in Hc, Hf. auto.
  - intros (st & f & e & -> & Hc & Hf).
    apply String.eqb_neq in Hc, Hf. rewrite Hc, Hf. reflexivity.
Qed.

(** X19.  The wait ends with the first reply that is not "still
    processing", provided it comes within the 60 rounds: the outcome is the
    one that reply alone determines, and later replies are never asked
    for. *)
Theorem poll_stops_at_first_decisive_reply
  (status_response : nat -> Client.StatusResponse) (i : nat)
  (outcome : Client.PollOutcome) :
  i < 60 ->
  (forall j, j < i -> round (status_response j) = None) ->
  round (status_response i) = Some outcome ->
  poll status_response summary_response = outcome.
Proof.
  intros Hi Hwait Hdec.
  apply (poll_from_decisive status_response 60 0 i outcome Hi); assumption.
Qed.

(** X20.  The wait times out exactly when each of the 60 replies is a
    parsed body whose status is neither "completed" nor "failed" - so also
    when the server keeps answering "not_found". *)
Theorem poll_times_out_iff
  (status_response : nat -> Client.StatusResponse) :
  poll status_response summary_response = Client.TimedOut <->
  forall j, j < 60 ->
    exists st file error,
      status_response j = Client.StatusData (Some st) file error /\
      st <> "completed" /\ st <> "failed".
Proof.
  unfold Client.poll, Client.max_retries. rewrite poll_from_timeout.
  split; intros Hall j Hj; specialize (Hall j Hj); cbn [Nat.add] in *;
    apply round_waits; exact Hall.
Qed.

(** X21.  At most 60 status requests are made: two servers that answer
    alike to the first 60 make the wait end alike. *)
Theorem poll_reads_60_replies
  (replies1 replies2 : nat -> Client.StatusResponse) :
  (forall j, j < 60 -> replies1 j = replies2 j) ->
  poll replies1 summary_response = poll replies2 summary_response.
Proof.
  unfold Client.poll, Client.max_retries.
  assert (Hgen : forall remaining retries,
            (forall j, j < remaining ->
               replies1 (retries + j) = replies2 (retries + j)) ->
            poll_from replies1 summary_response remaining retries =
            poll_from replies2 summary_response remaining retries).
  { induction remaining as [|n IH]; intros retries Hsame; [reflexivity|].
    cbn [Client.poll_from].
    specialize (Hsame 0 ltac:(lia)) as H0. rewrite Nat.add_0_r in H0.
    rewrite H0. destruct (round (replies2 retries)); [reflexivity|].
    apply IH. intros j Hj.
    replace (S retries + j) with (retries + S j) by lia. apply Hsame. lia. }
  intros Hsame. apply Hgen. exact Hsame.
Qed.

End PollLoop.

(** ** frontend.py: the running average of the session *)

Lemma inject_succ (n : nat) :
  (inject_Z (Z.of_nat (S n)) == inject_Z (Z.of_nat n) + 1)%Q.
Proof.
  rewrite Nat2Z.inj_succ. unfold Z.succ. rewrite inject_Z_plus. reflexivity.
Qed.

Lemma inject_succ_nonzero (n : nat) : ~ (inject_Z (Z.of_nat (S n)) == 0)%Q.
Proof.
  intros Heq. assert (Hpos : (0 < inject_Z (Z.of_nat (S n)))%Q).
  { replace 0%Q with (inject_Z 0) by reflexivity. rewrite <- Zlt_Qlt. lia. }
  rewrite Heq in Hpos. exact (Qlt_irrefl _ Hpos).
Qed.

Lemma record_answer_step (scores : list Q) (st : Client.Stats) (total : Q) :
  scores <> [] ->
  (Client.avg_relevance st * inject_Z (Z.of_nat (Client.total_questions st))
   == total)%Q ->
  (Client.avg_relevance (Client.record_answer scores st)
   * inject_Z (Z.of_nat (Client.total_questions
                           (Client.record_answer scores st)))
   == total + Rag.sum scores / inject_Z (Z.of_nat (length scores)))%Q.
Proof.
  intros Hne Hinv. unfold Client.record_answer.
  destruct scores as [|q qs]; [congruence|].
  cbn [Client.avg_relevance Client.total_questions].
  set (n := Client.total_questions st) in *.
  set (m := (Rag.sum (q :: qs) / inject_Z (Z.of_nat (length (q :: qs))))%Q).
  rewrite <- Hinv.
  pose proof (inject_succ_nonzero n) as Hnz.
  pose proof (inject_succ n) as Hs.
  set (k := inject_Z (Z.of_nat (S n))) in *.
  assert (Hk : (inject_Z (Z.of_nat n) == k - 1)%Q) by (rewrite Hs; ring).
  rewrite Hk. field. exact Hnz.
Qed.

(** X22.  In exact arithmetic, after any number of answers that all came
    with sources, [total_questions] counts them and [avg_relevance] times
    that count is the sum of the answers' mean source scores: the running
    update keeps the mean of the per-answer means. *)
Theorem running_average_is_mean_of_means (answers : list (list Q)) :
  Forall (fun scores => scores <> []) answers ->
  let final :=
    fold_left (fun st scores => Client.record_answer scores st)
      answers Client.initial in
  Client.total_questions final = length answers /\
  (Client.avg_relevance final * inject_Z (Z.of_nat (length answers)) ==
   Rag.sum (map (fun scores =>
                   Rag.sum scores / inject_Z (Z.of_nat (length scores)))
                answers))%Q.
Proof.
  intros Hall. cbn zeta.
  assert (Hgen : forall st total,
            (Client.avg_relevance st
             * inject_Z (Z.of_nat (Client.total_questions st)) == total)%Q ->
            let final :=
              fold_left (fun st scores => Client.record_answer scores st)
                answers st in
            Client.total_questions final
              = Client.total_questions st + length answers /\
            (Client.avg_relevance final
             * inject_Z (Z.of_nat (Client.total_questions final)) ==
             total +
             Rag.sum (map (fun scores =>
                             Rag.sum scores
                             / inject_Z (Z.of_nat (length scores)))
                          answers))%Q).
  { induction Hall as [|scores rest Hne _ IH]; intros st total Hinv; cbn zeta.
    - cbn [fold_left map length]. split; [lia|].
      rewrite Hinv. unfold Rag.sum. cbn [fold_left]. ring.
    - cbn [fold_left map length].
      destruct (IH (Client.record_answer scores st) _
                  (record_answer_step scores st total Hne Hinv))
        as [Hcount Havg].
      split.
      + rewrite Hcount. cbn [Client.record_answer Client.total_questions].
        lia.
      + rewrite Havg, sum_cons. ring. }
  destruct (Hgen Client.initial 0%Q) as [Hcount Havg].
  { cbn. reflexivity. }
  cbn [Client.initial Client.total_questions Nat.add] in Hcount.
  split; [exact Hcount|].
  rewrite <- Hcount. rewrite Havg. ring.
Qed.

(** ** The further properties on explicit inputs *)

Lemma process_document_completed_witness :
  exists documents nodes chunks,
    @load_data Scenario.summariser_down "uploads/t2_notes.txt"
      = Ret documents /\ documents <> [] /\
    @get_nodes_from_documents Scenario.summariser_down documents
      = Ret nodes /\
    @embed_nodes Scenario.summariser_down nodes = Ret chunks /\
    @Ingest.generate_summary Scenario.summariser_down
      (String.concat " " (map doc_text documents))
      = Ret Ingest.summary_fallback /\
    "t2_notes.txt" = Ingest.basename "uploads/t2_notes.txt" /\
    "t2" = "t2" /\
    snd (@Ingest.process_document Scenario.summariser_down
           "uploads/t2_notes.txt" "t2" ∅) !! ("doc_" +:+ "t2")
    = Some (default [] ((∅ : ChromaDB) !! ("doc_" +:+ "t2")) ++ chunks).
Proof.
  apply (@process_document_completed Scenario.summariser_down
           "uploads/t2_notes.txt" "t2" Ingest.summary_fallback
           "t2_notes.txt" "t2" ∅).
  reflexivity.
Defined.



Lemma upload_then_process_witness :
  let up := Main.upload_file "t2" "notes.txt" (Ret tt) Scenario.finished in
  up.1.1 = Main.Ok "t2" /\
  Main.check_task_status "t2" up.2 = Some (Processing "notes.txt") /\
  exists result,
    Main.check_task_status "t2"
      (@Main.run_background Scenario.summariser_down up.1.2 up.2)
      = Some result /\
    terminal result = true /\
    forall summary file index_id,
      result = Completed summary file index_id ->
      file = "t2" +:+ "_" +:+ "notes.txt" /\ index_id = "t2".
Proof.
  apply (@upload_then_process Scenario.summariser_down
           "t2" "notes.txt" Scenario.finished); reflexivity.
Defined.

Lemma upload_to_summary_witness :
  let I := Scenario.ingestion [{| doc_text := "One sentence." |}]
             (Ret "Two lines.") in
  let up := Main.upload_file "t2" "notes.txt" (Ret tt) Scenario.finished in
  Main.get_document_summary "t2" (@Main.run_background I up.1.2 up.2) =
    Main.Ok (Main.Summary (@strip I "Two lines.")
               ("t2" +:+ "_" +:+ "notes.txt")).
Proof.
  apply (@upload_to_summary
           (Scenario.ingestion [{| doc_text := "One sentence." |}]
              (Ret "Two lines."))
           "t2" "notes.txt" "Two lines." Scenario.finished
           [{| doc_text := "One sentence." |}]
           [{| node_score := None; node_metadata := None;
               node_text := Some "One sentence.";
               node_str := "One sentence." |}]
           [{| node_score := None; node_metadata := None;
               node_text := Some "One sentence.";
               node_str := "One sentence." |}]);
    first [reflexivity | discriminate].
Defined.

Lemma poll_stops_at_first_decisive_reply_witness :
  Client.poll "notes.txt" "t2"
    (fun retries =>
       if Nat.ltb retries 2
       then Client.StatusData (Some "processing") (Some "notes.txt") None
       else Client.StatusData (Some "completed") (Some "t2_notes.txt") None)
    (Client.SummaryData (Some "Two lines."))
  = Client.Processed
      {| Client.task_id := "t2"; Client.filename := "t2_notes.txt";
         Client.summary := "Two lines." |}.
Proof.
  apply (poll_stops_at_first_decisive_reply "notes.txt" "t2"
           (Client.SummaryData (Some "Two lines.")) _ 2).
  - lia.
  - intros [|[|j]] Hj; [reflexivity | reflexivity | lia].
  - reflexivity.
Defined.

Lemma poll_reads_60_replies_witness :
  Client.poll "notes.txt" "t2"
    (fun retries =>
       if Nat.ltb retries 60
       then Client.StatusData (Some "not_found") None (Some "Invalid task ID")
       else Client.StatusData (Some "completed") None None)
    Client.SummaryNot200
  = Client.poll "notes.txt" "t2"
      (fun _ =>
         Client.StatusData (Some "not_found") None (Some "Invalid task ID"))
      Client.SummaryNot200.
Proof.
  apply (poll_reads_60_replies "notes.txt" "t2" Client.SummaryNot200).
  intros j Hj. apply Nat.ltb_lt in Hj. rewrite Hj. reflexivity.
Defined.

(** A server that does not know the task is polled 60 times and the wait
    is reported as timed out. *)
Example unknown_task_times_out :
  Client.poll "notes.txt" "t2"
    (fun _ =>
       Client.StatusData (Some "not_found") None (Some "Invalid task ID"))
    Client.SummaryNot200
  = Client.TimedOut.
Proof. reflexivity. Qed.

Lemma running_average_is_mean_of_means_witness :
  let answers := [[8 # 10]; [1 # 2; 1 # 1]]%Q in
  let final :=
    fold_left (fun st scores => Client.record_answer scores st)
      answers Client.initial in
  Client.total_questions final = length answers /\
  (Client.avg_relevance final * inject_Z (Z.of_nat (length answers)) ==
   Rag.sum (map (fun scores =>
                   Rag.sum scores / inject_Z (Z.of_nat (length scores)))
                answers))%Q.
Proof.
  apply (running_average_is_mean_of_means [[8 # 10]; [1 # 2; 1 # 1]]%Q).
  repeat constructor; discriminate.
Defined.
